(** * stream_server: configuration schema and code generation

    A shallow embedding of [components/stream_server/__init__.py].

    The Python module is a composition of ESPHome library calls: the
    validators of [esphome.config_validation] (imported as [cv]) and the
    code-generation helpers of [esphome.codegen] (imported as [cg]).  The
    module's own definitions ([AUTO_LOAD], [DEPENDENCIES], [MULTI_CONF],
    [CONFIG_SCHEMA], [to_code]) are embedded one to one; the library calls
    they are built from are embedded in the modules [cv] and [cg] below. *)

From stdpp Require Import gmap strings list fin_maps.
From Stdlib Require Import ZArith Lia Ascii.

Open Scope Z_scope.

(** ** Configuration values *)

(** The scalars and sequences a YAML block can hold, plus the identifier
    objects that validation produces.  [VFloat m e] is the finite float
    [m * 2 ^ e]; the floats that are no number are not part of the
    model. *)
#[warnings="-register-all"]
Inductive value :=
  | VNone
  | VBool (b : bool)
  | VInt (n : Z)
  | VFloat (m e : Z)
  | VStr (s : string)
  | VList (l : list value)
  | VID (name : option string) (is_declaration : bool) (type : string).

(** A configuration block: a Python dict with string keys. *)
Abbreviation config := (gmap string value).

(** ** Validation results *)

Inductive error_kind :=
  | RequiresVersion (year month patch : Z)
  | ExtraKeysNotAllowed
  | RequiredKeyNotProvided
  | ExpectedInteger
  | NotInRange (min max : Z)
  | IDRedefined (name : string)
  | InvalidValue (msg : string).

(** [vol.Invalid]: what went wrong and at which path of keys. *)
Record Invalid := mkInvalid { kind : error_kind; path : list string }.

(** A validator either returns the (possibly converted) value or raises.
    [Raise] carries the errors of a [vol.MultipleInvalid], which always
    holds at least one. *)
Inductive result (A : Type) :=
  | Ok (a : A)
  | Raise (error : Invalid) (more : list Invalid).
Arguments Ok {A} a.
Arguments Raise {A} error more.

Definition is_ok {A} (r : result A) : bool :=
  match r with Ok _ => true | Raise _ _ => false end.

Definition errors_of {A} (r : result A) : list Invalid :=
  match r with Ok _ => [] | Raise e es => e :: es end.

Definition validator (A : Type) := A → result A.

(** ** Python built-ins *)

(** The two built-ins the validators call on text: [str.lower] and
    [int(text, base)], which gives no integer where Python raises
    [ValueError]. *)
Record builtins := mkBuiltins {
  str_lower : string → string;
  int_of_str : string → Z → option Z
}.

(** ** esphome.const *)

Definition CONF_ID : string := "id".
Definition CONF_PORT : string := "port".

(** The version of the host framework, [esphome.const.__version__] parsed
    to a tuple of three integers. *)
Definition version : Type := Z * Z * Z.

(** Python's [<] on tuples of three integers. *)
Definition version_ltb (a b : version) : bool :=
  let '(ay, am, ap) := a in
  let '(b_y, bm, bp) := b in
  (ay <? b_y) || ((ay =? b_y) && ((am <? bm) || ((am =? bm) && (ap <? bp)))).

(** ** esphome.config_validation *)

Module cv.

(** Modelled from the spec: [cv.require_esphome_version] belongs to the
    ESPHome library, which is not among the sources.  The configuration is
    "validated to require a minimum host-framework version before
    acceptance": the validator raises when the host version is below the
    required one and returns the value unchanged otherwise. *)
Definition require_esphome_version {A} (host : version)
    (year month patch : Z) : validator A :=
  λ value,
    if version_ltb host (year, month, patch)
    then Raise (mkInvalid (RequiresVersion year month patch) []) []
    else Ok value.

(** [cv.All(v1, ..., vn)]: the validators run in sequence, each on the
    output of the one before; the first to raise ends the run. *)
Fixpoint All {A} (validators : list (validator A)) : validator A :=
  λ value,
    match validators with
    | [] => Ok value
    | func :: rest =>
        match func value with
        | Ok value' => All rest value'
        | Raise error more => Raise error more
        end
    end.

(** [int(value) == value] on a float, with [int(value)]. *)
Definition float_integer (m e : Z) : option Z :=
  if 0 <=? e then Some (m * 2 ^ e)
  else if m mod 2 ^ (- e) =? 0 then Some (m / 2 ^ (- e))
  else None.

(** [cv.int_]: an integer (a boolean is one) is returned as it is; a float
    without fractional part is converted; anything else has to be a
    string, which is lowered and read in base 16 when it starts with
    [0x], in base 10 otherwise.  "Automatically also converts strings to
    ints." *)
Definition int_ (py : builtins) : validator value :=
  λ value,
    match value with
    | VInt _ | VBool _ => Ok value
    | VFloat m e =>
        match float_integer m e with
        | Some n => Ok (VInt n)
        | None => Raise (mkInvalid ExpectedInteger []) []
        end
    | VStr text =>
        let value := str_lower py text in
        let base := if String.prefix "0x" value then 16 else 10 in
        match int_of_str py value base with
        | Some n => Ok (VInt n)
        | None => Raise (mkInvalid ExpectedInteger []) []
        end
    | _ => Raise (mkInvalid (InvalidValue "Must be string") []) []
    end.

(** [min <= v <= max] in Python, for the values that have an order with
    integers. *)
Definition in_range (min max : Z) (v : value) : bool :=
  match v with
  | VInt n => (min <=? n) && (n <=? max)
  | VBool b => let n := if b then 1 else 0 in (min <=? n) && (n <=? max)
  | VFloat m e =>
      if 0 <=? e then (min <=? m * 2 ^ e) && (m * 2 ^ e <=? max)
      else (min * 2 ^ (- e) <=? m) && (m <=? max * 2 ^ (- e))
  | _ => false
  end.

(** [cv.Range(min=..., max=...)]: the value is returned unchanged when it
    is within the bounds; a value out of bounds or without an order
    raises. *)
Definition Range (min max : Z) : validator value :=
  λ value,
    if in_range min max value then Ok value
    else Raise (mkInvalid (NotInRange min max) []) [].

(** [cv.port = All(int_, Range(min=1, max=65535))] *)
Definition port (py : builtins) : validator value :=
  All [int_ py; Range 1 65535].

(** Schema keys are wrapped in a marker.  [default] is the value inserted
    for an absent optional key, when the marker has one. *)
Inductive marker :=
  | Required (key : string)
  | Optional (key : string) (default : option value).

Definition key_literal (m : marker) : string :=
  match m with Required k => k | Optional k _ => k end.

(** [cv.GenerateID()]: the optional key [id], which defaults to [None]
    so that the value validator always runs and can declare a fresh
    identifier. *)
Definition GenerateID : marker := Optional CONF_ID (Some VNone).

(** [cv.Schema({...})]: the entries of the dict, in source order.  Extra
    keys are not allowed (the library's default). *)
Definition Schema : Type := list (marker * validator value).

Definition has_key (k : string) (entry : marker * validator value) : bool :=
  bool_decide (key_literal entry.1 = k).

(** [schema.extend(other)]: an entry of [other] replaces the entry of
    the same key, if there is one, and goes last. *)
Definition extend (schema other : Schema) : Schema :=
  foldl (λ result entry,
           filter (λ e, key_literal e.1 ≠ key_literal entry.1) result
             ++ [entry])
        schema other.

Definition find_entry (schema : Schema) (k : string)
    : option (marker * validator value) :=
  List.find (has_key k) schema.

(** Defaults are inserted for the optional keys that have one and are
    absent from the data. *)
Definition insert_default (data : config) (entry : marker * validator value)
    : config :=
  match entry.1 with
  | Optional k (Some d) =>
      match data !! k with
      | None => <[k := d]> data
      | Some _ => data
      end
  | _ => data
  end.

Definition fill_defaults (schema : Schema) (data : config) : config :=
  foldl insert_default data schema.

Definition prepend (k : string) (e : Invalid) : Invalid :=
  mkInvalid (kind e) (k :: path e).

(** One key of the data against the schema: the entry of that key
    validates the value; a key without entry is an extra key. *)
Definition validate_item (schema : Schema) (k : string) (v : value)
    : result value :=
  match find_entry schema k with
  | Some (_, validate) =>
      match validate v with
      | Ok v' => Ok v'
      | Raise error more => Raise (prepend k error) (prepend k <$> more)
      end
  | None => Raise (mkInvalid ExtraKeysNotAllowed [k]) []
  end.

Definition is_required (m : marker) : bool :=
  match m with Required _ => true | Optional _ _ => false end.

(** Required keys that the data does not provide. *)
Definition missing_required (schema : Schema) (data : config)
    : list Invalid :=
  (λ e, mkInvalid RequiredKeyNotProvided [key_literal e.1])
    <$> filter (λ e, is_required e.1 ∧ data !! key_literal e.1 = None)
               schema.

Definition item_errors (schema : Schema) (kv : string * value)
    : list Invalid :=
  errors_of (validate_item schema kv.1 kv.2).

Definition item_output (schema : Schema) (k : string) (v : value)
    : option value :=
  match validate_item schema k v with
  | Ok v' => Some v'
  | Raise _ _ => None
  end.

(** Calling a schema on a mapping.  All errors are collected, key by key,
    and raised together; without errors the output holds the validated
    value of every key of the data, defaults included. *)
Definition validate (schema : Schema) : validator config :=
  λ data,
    let data' := fill_defaults schema data in
    let errors :=
      mbind (item_errors schema) (map_to_list data')
        ++ missing_required schema data' in
    match errors with
    | [] => Ok (map_imap (item_output schema) data')
    | error :: more => Raise error more
    end.

End cv.

(** ** esphome.codegen *)

Module cg.

(** [MockObj]: the C++ variable that stands behind an identifier. *)
Record MockObj := mkMockObj { base : value }.

(** [obj.method(args)]: a C++ call expression built from a [MockObj]. *)
Inductive expression :=
  | Call (obj : MockObj) (method : string) (args : list value).

(** What a code generator asks of the framework, in call order. *)
Inductive action :=
  | NewPvariable (id_ : value)
  | Add (e : expression)
  | RegisterComponent (var : MockObj) (conf : config).

Inductive exception :=
  | KeyError (key : string).

(** Code generation threads the list of requested actions and may raise. *)
Definition M (A : Type) : Type := list action → exception + A * list action.

Definition ret {A} (a : A) : M A := λ log, inr (a, log).

Definition bind {A B} (m : M A) (k : A → M B) : M B :=
  λ log,
    match m log with
    | inl e => inl e
    | inr (a, log') => k a log'
    end.

(** [config[key]] on a Python dict. *)
Definition getitem (conf : config) (key : string) : M value :=
  λ log,
    match conf !! key with
    | Some v => inr (v, log)
    | None => inl (KeyError key)
    end.

Definition emit (a : action) : M unit := λ log, inr (tt, log ++ [a]).

(** [cg.new_Pvariable(id_)]: declares the variable of [id_] and returns
    the object that refers to it.  The identifier is taken as validation
    hands it over; what the call does with a value that is no identifier
    object is not part of the model. *)
Definition new_Pvariable (id_ : value) : M MockObj :=
  bind (emit (NewPvariable id_)) (λ _, ret (mkMockObj id_)).

(** [cg.add(expression)] *)
Definition add (e : expression) : M unit := emit (Add e).

(** [cg.register_component(var, config)], for a variable whose identifier
    was declared by validation; what the call does with another one is
    not part of the model. *)
Definition register_component (var : MockObj) (conf : config) : M unit :=
  emit (RegisterComponent var conf).

Definition run {A} (m : M A) : exception + A * list action := m [].

End cg.

#[global] Instance cg_ret : MRet cg.M := @cg.ret.
#[global] Instance cg_bind : MBind cg.M := λ A B k m, cg.bind m k.

(** ** components/stream_server/__init__.py *)

Definition AUTO_LOAD : list string := ["socket"%string].

Definition DEPENDENCIES : list string := ["network"%string].

Definition MULTI_CONF : bool := true.

(** [ns.class_("StreamServerComponent", cg.Component)] *)
Definition StreamServerComponent : string := "StreamServerComponent".

Section stream_server.

(** What the module takes from its environment: the host's version, the
    built-ins of Python, the validator [cv.declare_id] builds for a class,
    and the entries of [cv.COMPONENT_SCHEMA]. *)
Variable ESPHOME_VERSION : version.
Variable py : builtins.
Variable declare_id : string → validator value.
Variable COMPONENT_SCHEMA : cv.Schema.

Definition CONFIG_SCHEMA : validator config :=
  cv.All
    [ cv.require_esphome_version ESPHOME_VERSION 2022 3 0;
      cv.validate
        (cv.extend
           [ (cv.GenerateID, declare_id StreamServerComponent);
             (cv.Optional CONF_PORT (Some (VInt 6638)), cv.port py) ]
           COMPONENT_SCHEMA) ].

End stream_server.

Definition to_code (conf : config) : cg.M unit :=
  id_ ← cg.getitem conf CONF_ID;
  var ← cg.new_Pvariable id_;
  port ← cg.getitem conf CONF_PORT;
  cg.add (cg.Call var "set_port" [port]);;
  cg.register_component var conf.

(** ** The component loader *)

Module loader.

(** Modelled from the spec: the loader that reads a component module's
    attributes is ESPHome's and is not among the sources.  A module is known to
    it by these attributes. *)
Record ComponentManifest := mkManifest {
  auto_load : list string;
  dependencies : list string;
  multi_conf : bool;
  config_schema : validator config;
  code_generator : config → cg.M unit
}.

(** The top-level configuration: for every declared component, the
    blocks declared for it. *)
Abbreviation top_config := (gmap string (list config)).

Definition collect {A} (results : list (result A)) : result (list A) :=
  match mbind errors_of results with
  | [] => Ok (omap (λ r, match r with Ok a => Some a | Raise _ _ => None end)
                   results)
  | error :: more => Raise error more
  end.

(** Modelled from the spec: validation of the blocks of one component,
    which is ESPHome's and is not among the sources.  There is "one instance per
    declared block", each validated by the component's schema on its
    own; "MULTI_CONF semantics from the config layer imply multiple
    independent Port Configurations may coexist", so without it more
    than one block is an error. *)
Definition validate_blocks (m : ComponentManifest)
    (blocks : list config) : result (list config) :=
  if multi_conf m then collect (config_schema m <$> blocks)
  else
    match blocks with
    | [block] => collect [config_schema m block]
    | _ => Raise (mkInvalid
                    (InvalidValue "component does not allow multiple blocks")
                    []) []
    end.

(** The name a validated block declares, if its identifier is a
    declaration: [Some None] is a declaration still to be named. *)
Definition declared (out : config) : option (option string) :=
  match out !! CONF_ID with
  | Some (VID name true _) => Some name
  | _ => None
  end.

Definition name_of (out : config) : option string :=
  match declared out with
  | Some name => name
  | None => None
  end.

(** Modelled from the spec: the check of the identifiers, which is
    ESPHome's and is not among the sources: the identifier is "unique per
    instance", so a name that is declared already, [seen], cannot be
    declared again. *)
Fixpoint redefined (seen : list string) (outs : list config)
    : list Invalid :=
  match outs with
  | [] => []
  | out :: rest =>
      match declared out with
      | Some (Some name) =>
          if bool_decide (name ∈ seen)
          then mkInvalid (IDRedefined name) [CONF_ID] :: redefined seen rest
          else redefined (name :: seen) rest
      | _ => redefined seen rest
      end
  end.

(** Modelled from the spec: the naming of the identifiers that were left
    out, which is ESPHome's and is not among the sources: block by block,
    a declaration without name gets the name [fresh] makes for its class
    from the names registered at that time: those declared elsewhere,
    [taken], and those of all blocks, [done] being the blocks gone
    through. *)
Fixpoint resolve (fresh : string → list (option string) → string)
    (taken : list string) (done rest : list config) : list config :=
  match rest with
  | [] => []
  | out :: rest' =>
      let registered := (Some <$> taken) ++ omap declared (done ++ rest) in
      let out' :=
        match out !! CONF_ID with
        | Some (VID None true type) =>
            <[CONF_ID := VID (Some (fresh type registered)) true type]> out
        | _ => out
        end in
      out' :: resolve fresh taken (done ++ [out']) rest'
  end.

Definition id_pass (fresh : string → list (option string) → string)
    (taken : list string) (outs : list config) : result (list config) :=
  match redefined taken outs with
  | [] => Ok (resolve fresh taken [] outs)
  | error :: more => Raise error more
  end.

(** Modelled from the spec: what the loader makes of the blocks of one
    component, which is ESPHome's and is not among the sources: the
    blocks are validated, then their identifiers are checked and
    completed.  [fresh] is the framework's generator of names and [taken]
    the names declared elsewhere in the configuration. *)
Definition validate_component
    (fresh : string → list (option string) → string) (taken : list string)
    (m : ComponentManifest) (blocks : list config) : result (list config) :=
  match validate_blocks m blocks with
  | Ok outs => id_pass fresh taken outs
  | Raise error more => Raise error more
  end.

(** Modelled from the spec: code generation over the validated blocks,
    which is ESPHome's and is not among the sources: the component's generator
    runs once per block, in order. *)
Fixpoint generate (m : ComponentManifest) (blocks : list config)
    : cg.M unit :=
  match blocks with
  | [] => mret tt
  | block :: rest => code_generator m block;; generate m rest
  end.

(** Modelled from the spec: auto-loading, which is ESPHome's and is not
    among the sources.  Declaring a component adds every component its
    [AUTO_LOAD] names that is not declared yet, with no block. *)
Definition load_auto (m : ComponentManifest) (top : top_config)
    : top_config :=
  foldl (λ t name, match t !! name with
                   | None => <[name := []]> t
                   | Some _ => t
                   end)
        top (auto_load m).

(** Modelled from the spec: the dependency check, which is ESPHome's and
    is not among the sources.  Every component that [DEPENDENCIES] names has to
    be present in the configuration; the ones that are not are
    reported. *)
Definition missing_dependencies (m : ComponentManifest) (top : top_config)
    : list string :=
  filter (λ name, top !! name = None) (dependencies m).

End loader.

(** The attributes of this module, as the loader sees them. *)
Definition stream_server (host : version) (py : builtins)
    (declare_id : string → validator value) (COMPONENT_SCHEMA : cv.Schema)
    : loader.ComponentManifest :=
  loader.mkManifest AUTO_LOAD DEPENDENCIES MULTI_CONF
    (CONFIG_SCHEMA host py declare_id COMPONENT_SCHEMA) to_code.

(** The domain under which the component is declared: its directory. *)
Definition DOMAIN : string := "stream_server".

(** ** The runtime bridge *)

Module bridge.

Abbreviation byte := Byte.byte.

Inductive conn_state := Connecting | Active | Closing | Closed.

#[global] Instance conn_state_eq_dec : EqDecision conn_state.
Proof. solve_decision. Defined.

(** Modelled from the spec: the runtime (StreamServerComponent) is not
    among the sources.  A Connection is "{handle (owned socket), inbound byte
    queue (bounded, FIFO), outbound byte queue (bounded, FIFO), state}".
    [received] is the client's side of the socket: the bytes it has
    taken from this connection so far, in order. *)
Record Connection := mkConnection {
  handle : nat;
  inbound : list byte;
  outbound : list byte;
  state : conn_state;
  received : list byte
}.

(** Modelled from the spec: the Client Registry and the Serial Transport
    of the runtime, which is not among the sources.  [capacity] bounds every
    queue; [uart_written] is what the UART has accepted so far. *)
Record bridge_state := mkBridge {
  capacity : nat;
  clients : list Connection;
  uart_written : list byte
}.

(** What the non-blocking calls of one tick return. *)
Record events := mkEvents {
  poll_new_connection : option nat;
  read_available : option (list byte);
  socket_read : nat → option (list byte);
  serial_write : nat → nat;
  socket_send : nat → option nat
}.

Definition is_active (c : Connection) : bool :=
  bool_decide (state c = Active).

(** Modelled from the spec: the overflow policy of the runtime, which is
    not among the sources: "drop oldest queued bytes (ring-buffer semantics)";
    "total queued bytes never exceed capacity". *)
Definition enqueue (cap : nat) (queue bytes : list byte) : list byte :=
  let queue' := queue ++ bytes in
  drop (length queue' - cap) queue'.

(** Modelled from the spec: step 1 of the tick of the runtime, which is
    not among the sources: "Poll Listener; register any new connection", created
    "in state Connecting, immediately transitioned to Active". *)
Definition accept (ev : events) (cs : list Connection) : list Connection :=
  match poll_new_connection ev with
  | Some h => cs ++ [mkConnection h [] [] Active []]
  | None => cs
  end.

(** A serial read error is "treated as "no bytes available" for that
    tick". *)
Definition serial_input (ev : events) : list byte :=
  default [] (read_available ev).

(** Modelled from the spec: step 2 of the tick of the runtime, which is
    not among the sources: "broadcast verbatim to every Active connection's
    outbound queue". *)
Definition broadcast (cap : nat) (bytes : list byte) (c : Connection)
    : Connection :=
  if is_active c
  then mkConnection (handle c) (inbound c) (enqueue cap (outbound c) bytes)
         (state c) (received c)
  else c.

(** Modelled from the spec: step 3 of the tick of the runtime, which is
    not among the sources, for one connection: what the socket holds is read
    into the room left in the inbound queue, then the queue is written to
    the Serial Transport; "partial writes leave the remainder queued".  A
    read error or peer close takes the connection to Closed "within the
    same tick".  The result pairs the connection with the bytes the UART
    took. *)
Definition fan_in (cap : nat) (ev : events) (c : Connection)
    : Connection * list byte :=
  if is_active c then
    match socket_read ev (handle c) with
    | None =>
        (mkConnection (handle c) (inbound c) (outbound c) Closed
           (received c), [])
    | Some bytes =>
        let queue := inbound c ++ take (cap - length (inbound c)) bytes in
        let n := serial_write ev (handle c) in
        (mkConnection (handle c) (drop n queue) (outbound c) (state c)
           (received c), take n queue)
    end
  else (c, []).

(** Modelled from the spec: step 4 of the tick of the runtime, which is
    not among the sources: "flush outbound queue to the socket; partial sends
    leave remainder queued"; a send error "terminates only that
    connection". *)
Definition flush (ev : events) (c : Connection) : Connection :=
  if is_active c then
    match socket_send ev (handle c) with
    | None =>
        mkConnection (handle c) (inbound c) (outbound c) Closed (received c)
    | Some n =>
        mkConnection (handle c) (inbound c) (drop n (outbound c)) (state c)
          (received c ++ take n (outbound c))
    end
  else c.

(** Modelled from the spec: step 5 of the tick of the runtime, which is
    not among the sources: "Reap Closed connections". *)
Definition reap (cs : list Connection) : list Connection :=
  filter (λ c, state c ≠ Closed) cs.

(** Modelled from the spec: the Bridge Scheduler of the runtime, which is
    not among the sources: the five steps of one tick, "in fixed order". *)
Definition tick (st : bridge_state) (ev : events) : bridge_state :=
  let cs1 := accept ev (clients st) in
  let cs2 := broadcast (capacity st) (serial_input ev) <$> cs1 in
  let cs3 := fan_in (capacity st) ev <$> cs2 in
  let cs4 := flush ev <$> (fst <$> cs3) in
  mkBridge (capacity st) (reap cs4)
    (uart_written st ++ mbind snd cs3).

Definition run (st : bridge_state) (evs : list events) : bridge_state :=
  foldl tick st evs.








End bridge.

(** ** Auxiliary definitions for the statements *)

(** The component schema leaves the keys [id] and [port] to this module:
    it has no entry that would replace theirs. *)
Definition keeps_own_keys (schema : cv.Schema) : bool :=
  forallb (λ e, negb (cv.has_key CONF_ID e) && negb (cv.has_key CONF_PORT e))
          schema.

(** The keys a schema has an entry for. *)
Definition keys (schema : cv.Schema) : list string :=
  (λ e, cv.key_literal e.1) <$> schema.

(** The schema of the module without its [port] entry: what the rest of a
    block is validated against. *)
Definition REST_SCHEMA (declare_id : string → validator value)
    (COMPONENT_SCHEMA : cv.Schema) : cv.Schema :=
  cv.extend [ (cv.GenerateID, declare_id StreamServerComponent) ]
            COMPONENT_SCHEMA.

(** Python's [>=] on version tuples, spelled out. *)
Definition version_at_least (host : version) (year month patch : Z) : Prop :=
  let '(y, m, p) := host in
  (year < y ∨ (y = year ∧ (month < m ∨ (m = month ∧ patch ≤ p))))%Z.

(** The expressions a run of code generation has added, in order. *)
Definition added (log : list cg.action) : list cg.expression :=
  omap (λ a, match a with cg.Add e => Some e | _ => None end) log.

Definition method_of (e : cg.expression) : string :=
  match e with cg.Call _ method _ => method end.

(** The calls of a method among a list of expressions. *)
Definition calls_of (method : string) (es : list cg.expression)
    : list cg.expression :=
  filter (λ e, method_of e = method) es.

(** The Port Configuration of a validated block: its identifier and its
    port. *)
Definition port_configuration (out : config) : value * value :=
  (default VNone (out !! CONF_ID), default VNone (out !! CONF_PORT)).

(** The call that hands a Port Configuration to its instance. *)
Definition set_port_call (out : config) : cg.expression :=
  cg.Call (cg.mkMockObj (port_configuration out).1) "set_port"
          [(port_configuration out).2].

(** A value the spec takes for a TCP port number. *)
Definition port_number (v : value) : Prop :=
  ∃ n : Z, v = VInt n ∧ 1 ≤ n ≤ 65535.

(** The integer a value stands for when given as a port: an integer or a
    boolean as it is, a float without fractional part, a text as Python
    reads it, in base 16 after [0x] and in base 10 otherwise. *)
Definition integer_of (py : builtins) (v : value) : option Z :=
  match v with
  | VInt n => Some n
  | VBool b => Some (if b then 1 else 0)
  | VFloat m e => cv.float_integer m e
  | VStr text =>
      int_of_str py (str_lower py text)
        (if String.prefix "0x" (str_lower py text) then 16 else 10)
  | _ => None
  end.

(** A value that stands for a TCP port number. *)
Definition port_accepted (py : builtins) (v : value) : Prop :=
  ∃ n : Z, integer_of py v = Some n ∧ 1 ≤ n ≤ 65535.

(** What validation turns an accepted port into: integers and booleans
    stay, floats and texts become the integer they stand for. *)
Definition converted (v : value) (n : Z) : value :=
  match v with
  | VInt _ | VBool _ => v
  | _ => VInt n
  end.


(** What naming makes of a validated block: the block with its
    declaration named; a name that was given is kept. *)
Definition resolved (o out : config) : Prop :=
  ∃ given name type,
    o !! CONF_ID = Some (VID given true type)
    ∧ out = <[CONF_ID := VID (Some name) true type]> o
    ∧ (given = None ∨ given = Some name).

(** The identifier validator declares: whatever it accepts, it returns a
    declaration of the class it was built for. *)
Definition declares (declare_id : string → validator value) : Prop :=
  ∀ type v v', declare_id type v = Ok v' → ∃ name, v' = VID name true type.

(** The generator of names never gives a registered name. *)
Definition gives_fresh (fresh : string → list (option string) → string)
    : Prop :=
  ∀ type registered, Some (fresh type registered) ∉ registered.

(** A component schema of optional keys only, none with a default, each
    key once: nothing is required of a block and nothing is added to it. *)
Definition all_optional (schema : cv.Schema) : bool :=
  forallb (λ e, match e.1 with
                | cv.Optional _ None => true
                | _ => false
                end)
          schema.

Definition plain (schema : cv.Schema) : Prop :=
  keeps_own_keys schema = true
  ∧ all_optional schema = true
  ∧ NoDup (keys schema).

(** An instance of the framework's side, for concrete runs: identifiers
    are given as strings or left out, and the component schema has the
    optional key [setup_priority]. *)
Definition sample_declare_id (type : string) : validator value :=
  λ value,
    match value with
    | VNone => Ok (VID None true type)
    | VStr name => Ok (VID (Some name) true type)
    | _ => Raise (mkInvalid (InvalidValue "ID must be a string") []) []
    end.

Definition sample_COMPONENT_SCHEMA : cv.Schema :=
  [ (cv.Optional "setup_priority" None, λ v, Ok v) ].

Definition sample_version : version := (2022, 3, 0).

(** Python's built-ins on ASCII text, for concrete runs. *)
Definition ascii_lower_char (c : ascii) : ascii :=
  let n := nat_of_ascii c in
  if (65 <=? n)%nat && (n <=? 90)%nat then ascii_of_nat (n + 32) else c.

Fixpoint ascii_lower (text : string) : string :=
  match text with
  | EmptyString => EmptyString
  | String c rest => String (ascii_lower_char c) (ascii_lower rest)
  end.

Definition ascii_space (c : ascii) : bool :=
  let n := nat_of_ascii c in
  ((9 <=? n)%nat && (n <=? 13)%nat) || ((28 <=? n)%nat && (n <=? 32)%nat).

Definition digit_of (base : Z) (c : ascii) : option Z :=
  let n := Z.of_nat (nat_of_ascii c) in
  let d := if (48 <=? n) && (n <=? 57) then n - 48
           else if (97 <=? n) && (n <=? 122) then n - 87
           else if (65 <=? n) && (n <=? 90) then n - 55
           else base in
  if d <? base then Some d else None.

Fixpoint read_digits (base acc : Z) (after_digit : bool) (text : list ascii)
    : option Z :=
  match text with
  | [] => if after_digit then Some acc else None
  | c :: rest =>
      if Ascii.eqb c "_"
      then if after_digit then read_digits base acc false rest else None
      else match digit_of base c with
           | Some d => read_digits base (acc * base + d) true rest
           | None => None
           end
  end.

Definition strip (text : list ascii) : list ascii :=
  let drop_spaces := fix go (l : list ascii) : list ascii :=
    match l with
    | c :: rest => if ascii_space c then go rest else l
    | [] => []
    end in
  reverse (drop_spaces (reverse (drop_spaces text))).

Definition read_unsigned (base : Z) (text : list ascii) : option Z :=
  match text with
  | "0"%char :: x :: rest =>
      if (base =? 16) && (Ascii.eqb x "x" || Ascii.eqb x "X")
      then match rest with
           | "_"%char :: rest' => read_digits base 0 false rest'
           | _ => read_digits base 0 false rest
           end
      else read_digits base 0 false text
  | _ => read_digits base 0 false text
  end.

Definition ascii_int (text : string) (base : Z) : option Z :=
  match strip (String.list_ascii_of_string text) with
  | "-"%char :: rest => Z.opp <$> read_unsigned base rest
  | "+"%char :: rest => read_unsigned base rest
  | rest => read_unsigned base rest
  end.

Definition ascii_builtins : builtins := mkBuiltins ascii_lower ascii_int.

(** A generator of names for concrete runs: the class, then [_id], then
    as many underscores as the longest registered name has letters. *)
Definition longest (registered : list (option string)) : nat :=
  foldr (λ name n, Nat.max (String.length (default EmptyString name)) n)
        0%nat registered.

Fixpoint underscores (n : nat) : string :=
  match n with
  | O => "_"
  | S n' => String "_" (underscores n')
  end.

Definition sample_fresh (type : string) (registered : list (option string))
    : string :=
  String.append (ascii_lower type)
    (String.append "_id" (underscores (longest registered))).

(** Three blocks: one with a name and a port, one with a port written as
    text, one empty. *)
Definition sample_blocks : list config :=
  [ {[ CONF_ID := VStr "gps"; CONF_PORT := VInt 2000 ]};
    {[ CONF_PORT := VStr "2001" ]};
    ∅ ].

Definition sample_validated : list config :=
  [ {[ CONF_ID := VID (Some "gps") true StreamServerComponent;
       CONF_PORT := VInt 2000 ]};
    {[ CONF_ID := VID None true StreamServerComponent;
       CONF_PORT := VInt 2001 ]};
    {[ CONF_ID := VID None true StreamServerComponent;
       CONF_PORT := VInt 6638 ]} ].

Definition SAMPLE_SCHEMA : validator config :=
  CONFIG_SCHEMA sample_version ascii_builtins sample_declare_id
    sample_COMPONENT_SCHEMA.

(** The scenario of the spec: the UART emits "OK\r\n" while two clients
    are connected.  In the first tick the first client takes the four
    bytes at once and the second takes two; the second tick has a serial
    read error and both sockets take all that is left. *)
Definition sample_bytes : list bridge.byte :=
  [ Byte.x4f; Byte.x4b; Byte.x0d; Byte.x0a ].

Definition sample_bridge : bridge.bridge_state :=
  bridge.mkBridge 8
    [ bridge.mkConnection 1 [] [] bridge.Active [];
      bridge.mkConnection 2 [] [] bridge.Active [] ]
    [].

Definition sample_first_tick : bridge.events :=
  bridge.mkEvents None (Some sample_bytes) (λ _, Some [])
    (λ _, 0%nat) (λ h, Some (if Nat.eqb h 1 then 4%nat else 2%nat)).

Definition sample_last_tick : bridge.events :=
  bridge.mkEvents None None (λ _, Some []) (λ _, 0%nat) (λ _, Some 8%nat).

Definition sample_ticks : list bridge.events :=
  [ sample_first_tick; sample_last_tick ].

(** * Properties *)

(** Two schema keys differ. *)
Ltac key_ne := cbv; congruence.

(** ** Results *)

Lemma is_ok_errors_of {A} (r : result A) : is_ok r = true ↔ errors_of r = [].
Proof. destruct r; simpl; split; congruence. Qed.

Lemma is_ok_Ok {A} (r : result A) : is_ok r = true ↔ ∃ a, r = Ok a.
Proof.
  destruct r; simpl; split; eauto; try congruence.
  intros [a Ha]; congruence.
Qed.

(** ** Schemas *)

Section schema_facts.

Implicit Types (s o : cv.Schema) (d : config) (k : string) (v : value).

Lemma version_ltb_at_least (host : version) (y m p : Z) :
  version_ltb host (y, m, p) = false ↔ version_at_least host y m p.
Proof.
  destruct host as [[hy hm] hp]; unfold version_ltb, version_at_least.
  rewrite !orb_false_iff, !andb_false_iff, !orb_false_iff, !andb_false_iff.
  rewrite !Z.ltb_ge, !Z.eqb_neq. lia.
Qed.

Lemma find_entry_None s k : cv.find_entry s k = None ↔ k ∉ keys s.
Proof.
  unfold cv.find_entry, keys. induction s as [|e s IH]; simpl.
  - split; [intros _; apply not_elem_of_nil | done].
  - unfold cv.has_key at 1. rewrite not_elem_of_cons.
    case_bool_decide as Hk; [split; [done | intros [? _]; congruence] |].
    rewrite IH. intuition congruence.
Qed.

Lemma find_entry_cons_ne e s k :
  cv.key_literal e.1 ≠ k → cv.find_entry (e :: s) k = cv.find_entry s k.
Proof.
  intros Hk. unfold cv.find_entry; simpl. unfold cv.has_key at 1.
  by rewrite bool_decide_eq_false_2.
Qed.

Lemma find_entry_cons_eq e s k :
  cv.key_literal e.1 = k → cv.find_entry (e :: s) k = Some e.
Proof.
  intros Hk. unfold cv.find_entry; simpl. unfold cv.has_key at 1.
  by rewrite bool_decide_eq_true_2.
Qed.

(** [extend] filters the old entries and appends the result of extending
    from nothing. *)
Lemma extend_app o : ∀ a b,
  cv.extend (a ++ b) o
  = filter (λ e, cv.key_literal e.1 ∉ keys o) a ++ cv.extend b o.
Proof.
  unfold cv.extend. induction o as [|e o IH]; intros a b; simpl.
  - f_equal. induction a as [|x a IHa]; [done|].
    rewrite filter_cons_True; [by f_equal | apply not_elem_of_nil].
  - rewrite filter_app, <- app_assoc, IH. f_equal.
    rewrite list_filter_filter. apply list_filter_iff. intros x.
    rewrite not_elem_of_cons. tauto.
Qed.

Lemma extend_keys o : ∀ b k, k ∈ keys (cv.extend b o) → k ∈ keys b ∨ k ∈ keys o.
Proof.
  unfold cv.extend. induction o as [|e o IH]; intros b k; simpl; [auto|].
  intros Hk. apply IH in Hk as [Hk|Hk]; [|right; by constructor].
  unfold keys in Hk. rewrite fmap_app, elem_of_app in Hk.
  destruct Hk as [Hk|Hk].
  - left. apply list_elem_of_fmap in Hk as (x & -> & Hx).
    apply list_elem_of_filter in Hx as [_ Hx].
    apply list_elem_of_fmap. eauto.
  - right. simpl in Hk. apply list_elem_of_singleton in Hk as ->. by left.
Qed.

End schema_facts.

(** ** Defaults *)

Section default_facts.

Implicit Types (s : cv.Schema) (d : config) (k : string) (v : value).

Lemma insert_default_lookup_Some d e k v :
  d !! k = Some v → cv.insert_default d e !! k = Some v.
Proof.
  intros Hk. unfold cv.insert_default.
  destruct e.1 as [|k' [dv|]]; try done.
  destruct (d !! k') eqn:Hk'; [done|].
  rewrite lookup_insert_ne; [done | congruence].
Qed.

Lemma insert_default_lookup_ne d e k :
  cv.key_literal e.1 ≠ k → cv.insert_default d e !! k = d !! k.
Proof.
  intros Hk. unfold cv.insert_default.
  destruct e.1 as [|k' [dv|]]; try done. simpl in Hk.
  destruct (d !! k'); [done|]. by rewrite lookup_insert_ne.
Qed.

Lemma insert_default_insert d e k v :
  cv.key_literal e.1 ≠ k →
  cv.insert_default (<[k := v]> d) e = <[k := v]> (cv.insert_default d e).
Proof.
  intros Hk. unfold cv.insert_default.
  destruct e.1 as [|k' [dv|]]; try done. simpl in Hk.
  rewrite lookup_insert_ne by congruence.
  destruct (d !! k'); [done|]. by apply insert_insert_ne.
Qed.

Lemma fill_defaults_lookup_Some s : ∀ d k v,
  d !! k = Some v → cv.fill_defaults s d !! k = Some v.
Proof.
  unfold cv.fill_defaults. induction s as [|e s IH]; intros d k v Hk; [done|].
  simpl. by apply IH, insert_default_lookup_Some.
Qed.

Lemma fill_defaults_lookup_ne s : ∀ d k,
  k ∉ keys s → cv.fill_defaults s d !! k = d !! k.
Proof.
  unfold cv.fill_defaults, keys.
  induction s as [|e s IH]; intros d k Hk; [done|].
  simpl in *. apply not_elem_of_cons in Hk as [Hk Hs].
  rewrite IH by done. by apply insert_default_lookup_ne.
Qed.

Lemma fill_defaults_insert s : ∀ d k v,
  k ∉ keys s →
  cv.fill_defaults s (<[k := v]> d) = <[k := v]> (cv.fill_defaults s d).
Proof.
  unfold cv.fill_defaults, keys.
  induction s as [|e s IH]; intros d k v Hk; [done|].
  simpl in *. apply not_elem_of_cons in Hk as [Hk Hs].
  rewrite insert_default_insert by done. by apply IH.
Qed.

End default_facts.

(** ** Calling a schema *)

Section validate_facts.

Implicit Types (s : cv.Schema) (d : config) (k : string) (v : value).

Lemma validate_errors s d :
  errors_of (cv.validate s d)
  = mbind (cv.item_errors s) (map_to_list (cv.fill_defaults s d))
      ++ cv.missing_required s (cv.fill_defaults s d).
Proof. unfold cv.validate. by destruct (_ ++ _). Qed.

Lemma validate_output s d out :
  cv.validate s d = Ok out →
  out = map_imap (cv.item_output s) (cv.fill_defaults s d).
Proof. unfold cv.validate. destruct (_ ++ _); congruence. Qed.

Lemma item_ok_errors s k v :
  cv.item_errors s (k, v) = [] ↔ is_ok (cv.validate_item s k v) = true.
Proof. unfold cv.item_errors. by rewrite is_ok_errors_of. Qed.

(** A mapping is accepted exactly when every one of its keys, defaults
    included, is accepted and no required key is missing. *)
Lemma validate_is_ok s d :
  is_ok (cv.validate s d) = true
  ↔ map_Forall (λ k v, is_ok (cv.validate_item s k v) = true)
               (cv.fill_defaults s d)
    ∧ cv.missing_required s (cv.fill_defaults s d) = [].
Proof.
  rewrite is_ok_errors_of, validate_errors, app_nil.
  apply and_iff_compat_r. rewrite map_Forall_to_list, Forall_forall.
  split.
  - intros Hnil [k v] Hkv. apply item_ok_errors.
    destruct (cv.item_errors s (k, v)) as [|e es] eqn:He; [done|].
    assert (e ∈ mbind (cv.item_errors s)
                  (map_to_list (cv.fill_defaults s d))) as Hin.
    { apply list_elem_of_bind. exists (k, v). split; [|done].
      rewrite He. by left. }
    rewrite Hnil in Hin. by apply elem_of_nil in Hin.
  - intros Hall. induction (map_to_list _) as [|[k v] l IH]; [done|].
    rewrite bind_cons. apply app_nil. split.
    + apply item_ok_errors. apply (Hall (k, v)). by left.
    + apply IH. intros x Hx. apply Hall. by right.
Qed.

(** The validated value of a key of the output. *)
Lemma validate_lookup s d out k :
  cv.validate s d = Ok out →
  out !! k = cv.fill_defaults s d !! k ≫= cv.item_output s k.
Proof. intros ->%validate_output. apply map_lookup_imap. Qed.

Lemma validate_item_error s d k v e :
  cv.fill_defaults s d !! k = Some v →
  e ∈ errors_of (cv.validate_item s k v) →
  e ∈ errors_of (cv.validate s d).
Proof.
  intros Hk He. rewrite validate_errors, elem_of_app. left.
  apply list_elem_of_bind. exists (k, v). split; [done|].
  by apply elem_of_map_to_list.
Qed.

End validate_facts.

(** ** The port validator *)

Section port_facts.

Variable py : builtins.

Implicit Types (v p : value) (n : Z).

Lemma range_ok v p :
  cv.Range 1 65535 v = Ok p ↔ cv.in_range 1 65535 v = true ∧ p = v.
Proof.
  unfold cv.Range. destruct (cv.in_range 1 65535 v); split.
  - by intros [= <-].
  - by intros [_ ->].
  - done.
  - by intros [? _].
Qed.

Lemma in_range_int n : cv.in_range 1 65535 (VInt n) = true ↔ 1 ≤ n ≤ 65535.
Proof. simpl. rewrite andb_true_iff, !Z.leb_le. done. Qed.

Lemma port_unfold v :
  cv.port py v
  = match cv.int_ py v with
    | Ok v' => cv.Range 1 65535 v'
    | Raise e es => Raise e es
    end.
Proof.
  unfold cv.port. simpl. destruct (cv.int_ py v) as [v'|]; [|done].
  by destruct (cv.Range 1 65535 v').
Qed.

(** What the port validator accepts and what it returns, spelled out. *)
Lemma port_spec v p :
  cv.port py v = Ok p
  ↔ ∃ n, integer_of py v = Some n ∧ 1 ≤ n ≤ 65535 ∧ p = converted v n.
Proof.
  rewrite port_unfold. destruct v as [|b|k|m e|text|l|name decl type]; simpl;
    try (split; [done | by intros (n & ? & _)]).
  - rewrite range_ok. simpl. destruct b; simpl.
    + split; [intros [_ ->]; exists 1; split; [done|]; split; [lia | done]
             | intros (n & [= <-] & _ & ->); done].
    + split; [by intros [? _] | intros (n & [= <-] & ? & _); lia].
  - rewrite range_ok, in_range_int. split.
    + intros [Hk ->]. by exists k.
    + intros (n & [= <-] & Hn & ->). done.
  - destruct (cv.float_integer m e) as [k|]; simpl.
    + rewrite range_ok, in_range_int. split.
      * intros [Hk ->]. by exists k.
      * intros (n & [= <-] & Hn & ->). done.
    + split; [done | by intros (n & ? & _)].
  - destruct (int_of_str py _ _) as [k|]; simpl.
    + rewrite range_ok, in_range_int. split.
      * intros [Hk ->]. by exists k.
      * intros (n & [= <-] & Hn & ->). done.
    + split; [done | by intros (n & ? & _)].
Qed.

Lemma port_accepted_ok v : is_ok (cv.port py v) = true ↔ port_accepted py v.
Proof.
  rewrite is_ok_Ok. unfold port_accepted. split.
  - intros (p & (n & Hn & Hr & _)%port_spec). by exists n.
  - intros (n & Hn & Hr). exists (converted v n). apply port_spec. by exists n.
Qed.

(** An integer from 1 to 65535 is returned as it is. *)
Lemma port_number_accepted v : port_number v → cv.port py v = Ok v.
Proof.
  intros (n & -> & Hn). apply port_spec. exists n. by split.
Qed.

(** What comes out of the port validator stands for a port number. *)
Lemma port_returned v p :
  cv.port py v = Ok p →
  ∃ n, 1 ≤ n ≤ 65535 ∧ (p = VInt n ∨ (p = VBool true ∧ n = 1)).
Proof.
  intros (n & Hv & Hn & ->)%port_spec. exists n. split; [done|].
  destruct v as [|b| | | | |]; simpl in *; try by left.
  - destruct b; simplify_eq; [by right | lia].
  - simplify_eq. by left.
Qed.



End port_facts.

(** ** The schema of the module *)

Section config_facts.

Variable host : version.
Variable py : builtins.
Variable declare_id : string → validator value.
Variable COMPONENT_SCHEMA : cv.Schema.

Implicit Types (d : config) (k : string) (v : value).

Local Abbreviation ID_ENTRY := (cv.GenerateID, declare_id StreamServerComponent).
Local Abbreviation PORT_ENTRY := (cv.Optional CONF_PORT (Some (VInt 6638)), cv.port py).
Local Abbreviation SCHEMA := (cv.extend [ID_ENTRY; PORT_ENTRY] COMPONENT_SCHEMA).
Local Abbreviation REST := (REST_SCHEMA declare_id COMPONENT_SCHEMA).
Local Abbreviation INHERITED := (cv.extend [] COMPONENT_SCHEMA).

Lemma inherited_keys k : k ∈ keys INHERITED → k ∈ keys COMPONENT_SCHEMA.
Proof.
  intros [Hk|Hk]%extend_keys; [|done]. by apply elem_of_nil in Hk.
Qed.

Lemma schema_keys k :
  k ∈ keys SCHEMA → k = CONF_ID ∨ k = CONF_PORT ∨ k ∈ keys COMPONENT_SCHEMA.
Proof.
  intros [Hk|Hk]%extend_keys; [|auto].
  unfold keys in Hk; simpl in Hk.
  apply elem_of_cons in Hk as [->|Hk]; [auto|].
  apply list_elem_of_singleton in Hk as ->; auto.
Qed.

Lemma keeps_own_keys_spec :
  keeps_own_keys COMPONENT_SCHEMA = true →
  (CONF_ID ∉ keys COMPONENT_SCHEMA) ∧ (CONF_PORT ∉ keys COMPONENT_SCHEMA).
Proof.
  unfold keeps_own_keys, keys. rewrite forallb_forall.
  intros Hall. split; intros (e & He & Hin)%list_elem_of_fmap;
    apply list_elem_of_In, Hall in Hin;
    apply andb_prop in Hin as [H1 H2];
    apply negb_true_iff in H1, H2; unfold cv.has_key in *;
    [ apply bool_decide_eq_false in H1 | apply bool_decide_eq_false in H2 ];
    congruence.
Qed.

Section kept.

Hypothesis Hkeeps : keeps_own_keys COMPONENT_SCHEMA = true.

Lemma schema_shape : SCHEMA = ID_ENTRY :: PORT_ENTRY :: INHERITED.
Proof.
  destruct (keeps_own_keys_spec Hkeeps) as [Hid Hport].
  rewrite <- (app_nil_r [ID_ENTRY; PORT_ENTRY]) at 1. rewrite extend_app.
  rewrite filter_cons_True by exact Hid.
  by rewrite filter_cons_True by exact Hport.
Qed.

Lemma rest_shape : REST = ID_ENTRY :: INHERITED.
Proof.
  destruct (keeps_own_keys_spec Hkeeps) as [Hid Hport]. unfold REST_SCHEMA.
  rewrite <- (app_nil_r [ID_ENTRY]) at 1. rewrite extend_app.
  by rewrite filter_cons_True by exact Hid.
Qed.

Lemma inherited_no_port : CONF_PORT ∉ keys INHERITED.
Proof.
  intros Hk%inherited_keys. by destruct (keeps_own_keys_spec Hkeeps).
Qed.

Lemma inherited_no_id : CONF_ID ∉ keys INHERITED.
Proof.
  intros Hk%inherited_keys. by destruct (keeps_own_keys_spec Hkeeps).
Qed.

Lemma find_entry_port : cv.find_entry SCHEMA CONF_PORT = Some PORT_ENTRY.
Proof.
  rewrite schema_shape, find_entry_cons_ne by key_ne.
  by apply find_entry_cons_eq.
Qed.

Lemma find_entry_id : cv.find_entry SCHEMA CONF_ID = Some ID_ENTRY.
Proof. rewrite schema_shape. by apply find_entry_cons_eq. Qed.

Lemma find_entry_rest k :
  k ≠ CONF_PORT → cv.find_entry SCHEMA k = cv.find_entry REST k.
Proof.
  intros Hk. rewrite schema_shape, rest_shape.
  destruct (decide (k = CONF_ID)) as [->|Hid].
  - by rewrite !find_entry_cons_eq.
  - rewrite !find_entry_cons_ne; [done | | | ]; simpl; congruence.
Qed.

Lemma validate_item_rest k v :
  k ≠ CONF_PORT → cv.validate_item SCHEMA k v = cv.validate_item REST k v.
Proof. intros Hk. unfold cv.validate_item. by rewrite find_entry_rest. Qed.

Lemma validate_item_port v :
  cv.validate_item SCHEMA CONF_PORT v
  = match cv.port py v with
    | Ok v' => Ok v'
    | Raise e es => Raise (cv.prepend CONF_PORT e) (cv.prepend CONF_PORT <$> es)
    end.
Proof. unfold cv.validate_item. by rewrite find_entry_port. Qed.

Lemma fill_rest_port d : cv.fill_defaults REST d !! CONF_PORT = d !! CONF_PORT.
Proof.
  apply fill_defaults_lookup_ne. rewrite rest_shape. unfold keys. simpl.
  apply not_elem_of_cons. split; [key_ne | apply inherited_no_port].
Qed.

(** With the port entry, the defaults are those of the rest of the schema
    plus the port: the one supplied, or 6638. *)
Lemma fill_schema d :
  cv.fill_defaults SCHEMA d
  = <[CONF_PORT := default (VInt 6638) (d !! CONF_PORT)]>
      (cv.fill_defaults REST d).
Proof.
  rewrite schema_shape, rest_shape. unfold cv.fill_defaults. simpl.
  set (d1 := cv.insert_default d ID_ENTRY).
  assert (d1 !! CONF_PORT = d !! CONF_PORT) as Hd1
    by (apply insert_default_lookup_ne; key_ne).
  assert (cv.insert_default d1 PORT_ENTRY
          = <[CONF_PORT := default (VInt 6638) (d !! CONF_PORT)]> d1) as ->.
  { unfold cv.insert_default. simpl. rewrite <- Hd1.
    destruct (d1 !! CONF_PORT) eqn:Hp; simpl; [|done].
    symmetry. by apply insert_id. }
  apply (fill_defaults_insert INHERITED), inherited_no_port.
Qed.

Lemma missing_required_rest (g : config) v :
  cv.missing_required SCHEMA (<[CONF_PORT := v]> g)
  = cv.missing_required REST g.
Proof.
  rewrite schema_shape, rest_shape. unfold cv.missing_required.
  rewrite !(filter_cons_False _ ID_ENTRY) by (simpl; intros [[] _]).
  rewrite (filter_cons_False _ PORT_ENTRY) by (simpl; intros [[] _]).
  f_equal. pose proof inherited_no_port as Hno. unfold keys in Hno.
  induction INHERITED as [|e l IH]; [done|].
  simpl in Hno. apply not_elem_of_cons in Hno as [Hne Hl].
  rewrite !filter_cons. rewrite lookup_insert_ne by done.
  rewrite (IH Hl). by repeat case_decide.
Qed.

End kept.

End config_facts.

(** ** Acceptance by the schema of the module *)

Section acceptance.

Variable host : version.
Variable py : builtins.
Variable declare_id : string → validator value.
Variable COMPONENT_SCHEMA : cv.Schema.

Implicit Types (d : config) (k : string) (v : value).

Local Abbreviation SCHEMA :=
  (cv.extend [ (cv.GenerateID, declare_id StreamServerComponent);
               (cv.Optional CONF_PORT (Some (VInt 6638)), cv.port py) ]
             COMPONENT_SCHEMA).
Local Abbreviation REST := (REST_SCHEMA declare_id COMPONENT_SCHEMA).
Local Abbreviation CONFIG :=
  (CONFIG_SCHEMA host py declare_id COMPONENT_SCHEMA).

Lemma CONFIG_SCHEMA_unfold d :
  CONFIG d
  = if version_ltb host (2022, 3, 0)
    then Raise (mkInvalid (RequiresVersion 2022 3 0) []) []
    else cv.validate SCHEMA d.
Proof.
  unfold CONFIG_SCHEMA. simpl. unfold cv.require_esphome_version.
  destruct (version_ltb host (2022, 3, 0)); [done|].
  by destruct (cv.validate _ d).
Qed.

Lemma CONFIG_SCHEMA_supported d :
  version_at_least host 2022 3 0 → CONFIG d = cv.validate SCHEMA d.
Proof.
  intros Hv%version_ltb_at_least. by rewrite CONFIG_SCHEMA_unfold, Hv.
Qed.

Lemma CONFIG_SCHEMA_ok_version d :
  is_ok (CONFIG d) = true → version_at_least host 2022 3 0.
Proof.
  rewrite CONFIG_SCHEMA_unfold. intros Hok. apply version_ltb_at_least.
  by destruct (version_ltb host (2022, 3, 0)).
Qed.

Section kept.

Hypothesis Hkeeps : keeps_own_keys COMPONENT_SCHEMA = true.

Lemma port_item_ok v :
  is_ok (cv.validate_item SCHEMA CONF_PORT v) = is_ok (cv.port py v).
Proof. rewrite validate_item_port by done. by destruct (cv.port py v). Qed.

(** With a port in place, the filled mapping is accepted exactly when the
    port is and the mapping without it is accepted by the rest of the
    schema. *)
Lemma filled_accepted (g : config) v :
  g !! CONF_PORT = None →
  (map_Forall (λ k x, is_ok (cv.validate_item SCHEMA k x) = true)
              (<[CONF_PORT := v]> g)
   ∧ cv.missing_required SCHEMA (<[CONF_PORT := v]> g) = [])
  ↔ is_ok (cv.port py v) = true
    ∧ map_Forall (λ k x, is_ok (cv.validate_item REST k x) = true) g
    ∧ cv.missing_required REST g = [].
Proof.
  intros Hg. rewrite missing_required_rest by done.
  rewrite map_Forall_insert by done. rewrite port_item_ok.
  assert (map_Forall (λ k x, is_ok (cv.validate_item SCHEMA k x) = true) g
          ↔ map_Forall (λ k x, is_ok (cv.validate_item REST k x) = true) g)
    as Hrest.
  { split; intros Hall k x Hk; specialize (Hall k x Hk); simpl in *;
      (rewrite validate_item_rest in *; [done | done | congruence]). }
  rewrite Hrest. tauto.
Qed.

Lemma accepts_omitted d :
  d !! CONF_PORT = None →
  is_ok (cv.validate SCHEMA d) = is_ok (cv.validate REST d).
Proof.
  intros Hd. apply eq_true_iff_eq. rewrite !validate_is_ok.
  rewrite fill_schema, Hd by done. simpl.
  rewrite filled_accepted by by rewrite fill_rest_port.
  simpl. tauto.
Qed.

Lemma fill_supplied d v :
  cv.fill_defaults SCHEMA (<[CONF_PORT := v]> d)
  = <[CONF_PORT := v]> (cv.fill_defaults REST d).
Proof.
  rewrite fill_schema, lookup_insert_eq by done. simpl.
  rewrite (fill_defaults_insert REST), insert_insert_eq; [done|].
  rewrite rest_shape by done. unfold keys; simpl.
  apply not_elem_of_cons. split; [key_ne | by apply inherited_no_port].
Qed.


(** The validated port is what the port validator makes of the supplied
    one, or of 6638. *)
Lemma validated_port d out :
  cv.validate SCHEMA d = Ok out →
  ∃ p, cv.port py (default (VInt 6638) (d !! CONF_PORT)) = Ok p
       ∧ out !! CONF_PORT = Some p.
Proof.
  intros Hout. pose proof Hout as Hok.
  apply (f_equal is_ok), validate_is_ok in Hok as [Hall _].
  rewrite (validate_lookup _ _ _ CONF_PORT Hout).
  rewrite fill_schema in * by done.
  set (pv := default (VInt 6638) (d !! CONF_PORT)) in *.
  rewrite lookup_insert_eq. simpl.
  specialize (Hall CONF_PORT pv (lookup_insert_eq _ _ _)). simpl in Hall.
  unfold cv.item_output. rewrite validate_item_port in * by done.
  destruct (cv.port py pv) as [p|]; [by exists p | done].
Qed.

(** The validated mapping always has an identifier. *)
Lemma validated_id d out :
  cv.validate SCHEMA d = Ok out → is_Some (out !! CONF_ID).
Proof.
  intros Hout. pose proof Hout as Hok.
  apply (f_equal is_ok), validate_is_ok in Hok as [Hall _].
  rewrite (validate_lookup _ _ _ CONF_ID Hout).
  assert (is_Some (cv.fill_defaults SCHEMA d !! CONF_ID)) as [x Hx].
  { rewrite schema_shape by done. unfold cv.fill_defaults. simpl.
    destruct (d !! CONF_ID) as [x|] eqn:Hid.
    - exists x. apply (fill_defaults_lookup_Some (_ :: _)).
      unfold cv.insert_default. simpl. by rewrite Hid.
    - exists VNone. apply (fill_defaults_lookup_Some (_ :: _)).
      unfold cv.insert_default. simpl. rewrite Hid.
      by rewrite lookup_insert_eq. }
  rewrite Hx. simpl. specialize (Hall _ _ Hx). simpl in Hall.
  unfold cv.item_output. by destruct (cv.validate_item _ _ _).
Qed.

End kept.

(** A key without entry is an extra key. *)
Lemma extra_key_error d k :
  is_Some (d !! k) →
  k ≠ CONF_ID → k ≠ CONF_PORT → k ∉ keys COMPONENT_SCHEMA →
  mkInvalid ExtraKeysNotAllowed [k] ∈ errors_of (cv.validate SCHEMA d).
Proof.
  intros [x Hx] Hid Hport Hcomp.
  apply (validate_item_error _ _ k x).
  - by apply fill_defaults_lookup_Some.
  - unfold cv.validate_item.
    assert (cv.find_entry SCHEMA k = None) as ->; [|by left].
    apply find_entry_None. intros Hk%schema_keys. tauto.
Qed.

End acceptance.

Lemma default_port_accepted (py : builtins) :
  cv.port py (VInt 6638) = Ok (VInt 6638).
Proof. apply port_number_accepted. exists 6638. split; [done | lia]. Qed.

(** * The claims *)

(** C1, as stated: every configuration that omits the port key is
    accepted with port 6638.  It is not so: on a supported host, a
    configuration that omits the port and carries a key the schema does
    not know is rejected. *)
Lemma omitted_port_alone_is_not_enough :
  ({[ "bogus"%string := VInt 1 ]} : config) !! CONF_PORT = None
  ∧ SAMPLE_SCHEMA {[ "bogus"%string := VInt 1 ]}
    = Raise (mkInvalid ExtraKeysNotAllowed ["bogus"%string]) []
  ∧ ¬ (∀ cfg : config,
         cfg !! CONF_PORT = None →
         ∃ out, SAMPLE_SCHEMA cfg = Ok out
                ∧ out !! CONF_PORT = Some (VInt 6638)).
Proof.
  split; [by vm_compute|]. split; [by vm_compute|].
  intros Hall.
  destruct (Hall {[ "bogus"%string := VInt 1 ]}) as (out & Hout & _).
  - by vm_compute.
  - vm_compute in Hout. discriminate Hout.
Qed.

(** C1, amended: for every configuration that omits the port key,
    validation succeeds exactly when the host version is at least
    2022.3.0 and the rest of the configuration is valid for the schema
    without the port entry; whenever it succeeds, the validated port is
    6638. *)
Theorem default_port (host : version) (py : builtins) (declare_id : string → validator value)
    (COMPONENT_SCHEMA : cv.Schema) (cfg : config) :
  keeps_own_keys COMPONENT_SCHEMA = true →
  cfg !! CONF_PORT = None →
  (is_ok (CONFIG_SCHEMA host py declare_id COMPONENT_SCHEMA cfg) = true
   ↔ version_at_least host 2022 3 0
     ∧ is_ok (cv.validate (REST_SCHEMA declare_id COMPONENT_SCHEMA) cfg) = true)
  ∧ (∀ out, CONFIG_SCHEMA host py declare_id COMPONENT_SCHEMA cfg = Ok out →
            out !! CONF_PORT = Some (VInt 6638)).
Proof.
  intros Hkeeps Hport. split.
  - split.
    + intros Hok. pose proof (CONFIG_SCHEMA_ok_version _ _ _ _ _ Hok) as Hv.
      split; [done|]. rewrite CONFIG_SCHEMA_supported in Hok by done.
      by rewrite accepts_omitted in Hok.
    + intros [Hv Hrest]. rewrite CONFIG_SCHEMA_supported by done.
      by rewrite accepts_omitted.
  - intros out Hout.
    assert (version_at_least host 2022 3 0) as Hv.
    { eapply CONFIG_SCHEMA_ok_version. by rewrite Hout. }
    rewrite CONFIG_SCHEMA_supported in Hout by done.
    apply validated_port in Hout as (p & Hp & ->); [|done].
    rewrite Hport in Hp. simpl in Hp.
    rewrite default_port_accepted in Hp. congruence.
Qed.

Lemma default_port_witness :
  keeps_own_keys sample_COMPONENT_SCHEMA = true
  ∧ (∅ : config) !! CONF_PORT = None
  ∧ is_ok (SAMPLE_SCHEMA ∅) = true
  ∧ ∀ out, SAMPLE_SCHEMA ∅ = Ok out → out !! CONF_PORT = Some (VInt 6638).
Proof.
  split; [reflexivity|]. split; [reflexivity|].
  split; [by vm_compute|].
  apply (default_port sample_version ascii_builtins sample_declare_id
           sample_COMPONENT_SCHEMA ∅); reflexivity.
Defined.




(** The ends of the range, and values outside it. *)
Example port_1_accepted :
  is_ok (SAMPLE_SCHEMA {[ CONF_PORT := VInt 1 ]}) = true.
Proof. by vm_compute. Qed.

Example port_65535_accepted :
  is_ok (SAMPLE_SCHEMA {[ CONF_PORT := VInt 65535 ]}) = true.
Proof. by vm_compute. Qed.

Example port_0_rejected :
  SAMPLE_SCHEMA {[ CONF_PORT := VInt 0 ]}
  = Raise (mkInvalid (NotInRange 1 65535) [CONF_PORT]) [].
Proof. by vm_compute. Qed.

Example port_65536_rejected :
  SAMPLE_SCHEMA {[ CONF_PORT := VInt 65536 ]}
  = Raise (mkInvalid (NotInRange 1 65535) [CONF_PORT]) [].
Proof. by vm_compute. Qed.

Example port_none_rejected :
  SAMPLE_SCHEMA {[ CONF_PORT := VNone ]}
  = Raise (mkInvalid (InvalidValue "Must be string") [CONF_PORT]) [].
Proof. by vm_compute. Qed.

Example port_false_rejected :
  SAMPLE_SCHEMA {[ CONF_PORT := VBool false ]}
  = Raise (mkInvalid (NotInRange 1 65535) [CONF_PORT]) [].
Proof. by vm_compute. Qed.

(** 80.5, that is 161 / 2. *)
Example port_fraction_rejected :
  SAMPLE_SCHEMA {[ CONF_PORT := VFloat 161 (-1) ]}
  = Raise (mkInvalid ExpectedInteger [CONF_PORT]) [].
Proof. by vm_compute. Qed.

Example port_text_rejected :
  SAMPLE_SCHEMA {[ CONF_PORT := VStr "http" ]}
  = Raise (mkInvalid ExpectedInteger [CONF_PORT]) [].
Proof. by vm_compute. Qed.

Example port_text_out_of_range :
  SAMPLE_SCHEMA {[ CONF_PORT := VStr "65536" ]}
  = Raise (mkInvalid (NotInRange 1 65535) [CONF_PORT]) [].
Proof. by vm_compute. Qed.

(** C4: a configuration is accepted only on a host version of at least
    2022.3.0; on any lower version validation raises and nothing is
    accepted. *)
Theorem minimum_version (host : version) (py : builtins)
    (declare_id : string → validator value) (COMPONENT_SCHEMA : cv.Schema)
    (cfg : config) :
  (is_ok (CONFIG_SCHEMA host py declare_id COMPONENT_SCHEMA cfg) = true →
   version_at_least host 2022 3 0)
  ∧ (¬ version_at_least host 2022 3 0 →
     ∃ error more,
       CONFIG_SCHEMA host py declare_id COMPONENT_SCHEMA cfg = Raise error more).
Proof.
  split; [apply CONFIG_SCHEMA_ok_version|].
  intros Hlow.
  destruct (CONFIG_SCHEMA host py declare_id COMPONENT_SCHEMA cfg)
    as [out|error more] eqn:Hcfg; [|eauto].
  destruct Hlow. eapply CONFIG_SCHEMA_ok_version. by rewrite Hcfg.
Qed.

Lemma minimum_version_witness :
  is_ok (SAMPLE_SCHEMA ∅) = true
  ∧ version_at_least sample_version 2022 3 0
  ∧ ¬ version_at_least (2022, 2, 6) 2022 3 0
  ∧ ∃ error more,
      CONFIG_SCHEMA (2022, 2, 6) ascii_builtins sample_declare_id sample_COMPONENT_SCHEMA ∅
      = Raise error more.
Proof.
  split; [by vm_compute|]. split.
  - apply (minimum_version sample_version ascii_builtins sample_declare_id
             sample_COMPONENT_SCHEMA ∅). by vm_compute.
  - split; [unfold version_at_least; simpl; lia|].
    apply (minimum_version (2022, 2, 6) ascii_builtins sample_declare_id
             sample_COMPONENT_SCHEMA ∅).
    unfold version_at_least; simpl; lia.
Defined.

(** C8: the version check runs before the schema: on a host below
    2022.3.0 validation fails with the version error alone, whatever the
    keys and the port of the configuration are. *)
Theorem version_check_first (host : version) (py : builtins)
    (declare_id : string → validator value) (COMPONENT_SCHEMA : cv.Schema)
    (cfg : config) :
  ¬ version_at_least host 2022 3 0 →
  CONFIG_SCHEMA host py declare_id COMPONENT_SCHEMA cfg
  = Raise (mkInvalid (RequiresVersion 2022 3 0) []) [].
Proof.
  intros Hlow. rewrite CONFIG_SCHEMA_unfold.
  destruct (version_ltb host (2022, 3, 0)) eqn:Hlt; [done|].
  by apply version_ltb_at_least in Hlt.
Qed.

Lemma version_check_first_witness :
  ¬ version_at_least (2021, 12, 3) 2022 3 0
  ∧ CONFIG_SCHEMA (2021, 12, 3) ascii_builtins sample_declare_id sample_COMPONENT_SCHEMA
      {[ CONF_PORT := VStr "no port"; "bogus"%string := VNone ]}
    = Raise (mkInvalid (RequiresVersion 2022 3 0) []) [].
Proof.
  split; [unfold version_at_least; simpl; lia|].
  apply version_check_first. unfold version_at_least; simpl; lia.
Defined.

(** C9: only the key [id], the key [port] and the keys of the component
    schema are accepted: a configuration with any other key is rejected,
    on a supported host with an extra-key error at that key. *)
Theorem unknown_key_rejected (host : version) (py : builtins)
    (declare_id : string → validator value) (COMPONENT_SCHEMA : cv.Schema)
    (cfg : config) (k : string) :
  is_Some (cfg !! k) →
  k ≠ CONF_ID → k ≠ CONF_PORT → k ∉ keys COMPONENT_SCHEMA →
  is_ok (CONFIG_SCHEMA host py declare_id COMPONENT_SCHEMA cfg) = false
  ∧ (version_at_least host 2022 3 0 →
     mkInvalid ExtraKeysNotAllowed [k]
       ∈ errors_of (CONFIG_SCHEMA host py declare_id COMPONENT_SCHEMA cfg)).
Proof.
  intros Hk Hid Hport Hcomp.
  assert (version_at_least host 2022 3 0 →
          mkInvalid ExtraKeysNotAllowed [k]
            ∈ errors_of (CONFIG_SCHEMA host py declare_id COMPONENT_SCHEMA cfg))
    as Herr.
  { intros Hv. rewrite CONFIG_SCHEMA_supported by done.
    by apply extra_key_error. }
  split; [|done]. apply not_true_is_false. intros Hok.
  pose proof (CONFIG_SCHEMA_ok_version _ _ _ _ _ Hok) as Hv.
  apply is_ok_errors_of in Hok. specialize (Herr Hv).
  rewrite Hok in Herr. by apply elem_of_nil in Herr.
Qed.

Lemma unknown_key_rejected_witness :
  is_Some (({[ "baud_rate"%string := VInt 9600 ]} : config) !! "baud_rate"%string)
  ∧ "baud_rate"%string ≠ CONF_ID
  ∧ "baud_rate"%string ≠ CONF_PORT
  ∧ ("baud_rate"%string ∉ keys sample_COMPONENT_SCHEMA)
  ∧ is_ok (SAMPLE_SCHEMA {[ "baud_rate"%string := VInt 9600 ]}) = false.
Proof.
  assert ("baud_rate"%string ∉ keys sample_COMPONENT_SCHEMA) as Hnot.
  { intros [=]%list_elem_of_singleton. }
  assert (is_Some (({[ "baud_rate"%string := VInt 9600 ]} : config)
                     !! "baud_rate"%string)) as Hsome.
  { rewrite lookup_singleton_eq. by eexists. }
  split; [exact Hsome|]. split; [done|]. split; [done|].
  split; [exact Hnot|].
  apply (unknown_key_rejected sample_version ascii_builtins sample_declare_id
           sample_COMPONENT_SCHEMA {[ "baud_rate"%string := VInt 9600 ]}
           "baud_rate"); done.
Defined.

(** ** Code generation *)

Lemma to_code_run (conf : config) (id_ port : value) :
  conf !! CONF_ID = Some id_ →
  conf !! CONF_PORT = Some port →
  cg.run (to_code conf)
  = inr (tt, [ cg.NewPvariable id_;
               cg.Add (cg.Call (cg.mkMockObj id_) "set_port" [port]);
               cg.RegisterComponent (cg.mkMockObj id_) conf ]).
Proof.
  intros Hid Hport. unfold to_code, cg.run, mbind, cg_bind, cg.bind.
  unfold cg.getitem. by rewrite Hid, Hport.
Qed.

Lemma to_code_needs_id (conf : config) :
  conf !! CONF_ID = None → cg.run (to_code conf) = inl (cg.KeyError CONF_ID).
Proof.
  intros Hid. unfold to_code, cg.run, mbind, cg_bind, cg.bind.
  unfold cg.getitem. by rewrite Hid.
Qed.

Lemma validated_keys (host : version) (py : builtins)
    (declare_id : string → validator value)
    (COMPONENT_SCHEMA : cv.Schema) (cfg out : config) :
  keeps_own_keys COMPONENT_SCHEMA = true →
  CONFIG_SCHEMA host py declare_id COMPONENT_SCHEMA cfg = Ok out →
  ∃ id_ port,
    out !! CONF_ID = Some id_ ∧ out !! CONF_PORT = Some port
    ∧ cv.port py (default (VInt 6638) (cfg !! CONF_PORT)) = Ok port.
Proof.
  intros Hkeeps Hout.
  assert (version_at_least host 2022 3 0) as Hv.
  { eapply CONFIG_SCHEMA_ok_version. by rewrite Hout. }
  rewrite CONFIG_SCHEMA_supported in Hout by done.
  destruct (validated_id _ _ _ Hkeeps _ _ Hout) as [id_ Hid].
  destruct (validated_port _ _ _ Hkeeps _ _ Hout) as (port & Hp & Hport).
  by exists id_, port.
Qed.

(** C2: on a validated configuration, [to_code] emits exactly three
    actions, in this order: a new variable under the configuration's
    identifier, a call of [set_port] on that variable with the
    configuration's port, and the registration of the variable as a
    component. *)
Theorem to_code_three_actions (host : version) (py : builtins)
    (declare_id : string → validator value) (COMPONENT_SCHEMA : cv.Schema)
    (cfg out : config) :
  keeps_own_keys COMPONENT_SCHEMA = true →
  CONFIG_SCHEMA host py declare_id COMPONENT_SCHEMA cfg = Ok out →
  ∃ id_ port,
    out !! CONF_ID = Some id_
    ∧ out !! CONF_PORT = Some port
    ∧ cg.run (to_code out)
      = inr (tt, [ cg.NewPvariable id_;
                   cg.Add (cg.Call (cg.mkMockObj id_) "set_port" [port]);
                   cg.RegisterComponent (cg.mkMockObj id_) out ]).
Proof.
  intros Hkeeps Hout.
  destruct (validated_keys _ _ _ _ _ _ Hkeeps Hout) as (id_ & port & Hid & Hp & _).
  exists id_, port. split; [done|]. split; [done|]. by apply to_code_run.
Qed.

Lemma to_code_three_actions_witness :
  keeps_own_keys sample_COMPONENT_SCHEMA = true
  ∧ ∃ out id_ port,
      SAMPLE_SCHEMA {[ CONF_ID := VStr "bridge"; CONF_PORT := VInt 2323 ]}
      = Ok out
      ∧ out !! CONF_ID = Some id_
      ∧ out !! CONF_PORT = Some port
      ∧ cg.run (to_code out)
        = inr (tt, [ cg.NewPvariable id_;
                     cg.Add (cg.Call (cg.mkMockObj id_) "set_port" [port]);
                     cg.RegisterComponent (cg.mkMockObj id_) out ]).
Proof.
  split; [reflexivity|].
  destruct (SAMPLE_SCHEMA {[ CONF_ID := VStr "bridge"; CONF_PORT := VInt 2323 ]})
    as [out|error more] eqn:Hout; [|by vm_compute in Hout].
  exists out.
  destruct (to_code_three_actions sample_version ascii_builtins sample_declare_id
              sample_COMPONENT_SCHEMA _ out eq_refl Hout)
    as (id_ & port & Hid & Hport & Hrun).
  exists id_, port. split; [reflexivity|]. split; [exact Hid|].
  split; [exact Hport | exact Hrun].
Defined.

(** C6: on a validated configuration, [to_code] calls [set_port] exactly
    once, on the variable it created and with the validated port, and adds
    no other expression; the configuration it registers is the validated
    one, unchanged. *)
Theorem set_port_once (host : version) (py : builtins)
    (declare_id : string → validator value) (COMPONENT_SCHEMA : cv.Schema)
    (cfg out : config) :
  keeps_own_keys COMPONENT_SCHEMA = true →
  CONFIG_SCHEMA host py declare_id COMPONENT_SCHEMA cfg = Ok out →
  ∃ log id_ port,
    cg.run (to_code out) = inr (tt, log)
    ∧ out !! CONF_ID = Some id_
    ∧ out !! CONF_PORT = Some port
    ∧ added log = [ cg.Call (cg.mkMockObj id_) "set_port" [port] ]
    ∧ length (calls_of "set_port" (added log)) = 1%nat
    ∧ (∀ var conf, cg.RegisterComponent var conf ∈ log → conf = out).
Proof.
  intros Hkeeps Hout.
  destruct (validated_keys _ _ _ _ _ _ Hkeeps Hout) as (id_ & port & Hid & Hp & _).
  eexists _, id_, port. split; [by apply to_code_run|].
  split; [done|]. split; [done|]. split; [done|]. split; [done|].
  intros var conf Hin. repeat (apply elem_of_cons in Hin as [Hin|Hin]);
    try discriminate Hin; [congruence | by apply elem_of_nil in Hin].
Qed.

Lemma set_port_once_witness :
  keeps_own_keys sample_COMPONENT_SCHEMA = true
  ∧ ∃ out log,
      SAMPLE_SCHEMA {[ CONF_PORT := VInt 2323 ]} = Ok out
      ∧ cg.run (to_code out) = inr (tt, log)
      ∧ length (calls_of "set_port" (added log)) = 1%nat.
Proof.
  split; [reflexivity|].
  destruct (SAMPLE_SCHEMA {[ CONF_PORT := VInt 2323 ]})
    as [out|error more] eqn:Hout; [|by vm_compute in Hout].
  exists out.
  destruct (set_port_once sample_version ascii_builtins sample_declare_id
              sample_COMPONENT_SCHEMA _ out eq_refl Hout)
    as (log & id_ & port & Hrun & _ & _ & _ & Hone & _).
  exists log. split; [reflexivity|]. split; [exact Hrun | exact Hone].
Defined.

(** ** Several blocks *)

Lemma collect_all_ok {A} (rs : list (result A)) :
  Forall (λ r, is_ok r = true) rs →
  ∃ outs, loader.collect rs = Ok outs ∧ Forall2 (λ r a, r = Ok a) rs outs.
Proof.
  intros Hall. unfold loader.collect.
  assert (mbind errors_of rs = []) as ->.
  { induction Hall as [|r rs Hr _ IH]; [done|].
    rewrite bind_cons, IH. by apply is_ok_errors_of in Hr as ->. }
  eexists. split; [done|].
  induction Hall as [|r rs Hr _ IH]; [constructor|].
  destruct r as [a|]; [|done]. simpl. by constructor.
Qed.

Lemma to_code_from (conf : config) (id_ port : value) (log : list cg.action) :
  conf !! CONF_ID = Some id_ →
  conf !! CONF_PORT = Some port →
  to_code conf log
  = inr (tt, log ++ [ cg.NewPvariable id_;
                      cg.Add (cg.Call (cg.mkMockObj id_) "set_port" [port]);
                      cg.RegisterComponent (cg.mkMockObj id_) conf ]).
Proof.
  intros Hid Hport. unfold to_code, mbind, cg_bind, cg.bind.
  unfold cg.getitem. rewrite Hid, Hport. simpl.
  unfold cg.add, cg.register_component, cg.emit.
  by rewrite <- !app_assoc.
Qed.

Lemma added_app (l1 l2 : list cg.action) :
  added (l1 ++ l2) = added l1 ++ added l2.
Proof. apply omap_app. Qed.

(** Generating code for validated blocks adds one [set_port] call per
    block, each with the block's own identifier and port. *)
Lemma generate_blocks (m : loader.ComponentManifest) (outs : list config) :
  loader.code_generator m = to_code →
  Forall (λ out, is_Some (out !! CONF_ID) ∧ is_Some (out !! CONF_PORT)) outs →
  ∀ log, ∃ log',
    loader.generate m outs log = inr (tt, log')
    ∧ added log' = added log ++ (set_port_call <$> outs).
Proof.
  intros Hgen Hall. induction Hall as [|out outs [[i Hi] [p Hp]] _ IH];
    intros log; simpl.
  - exists log. split; [done|]. by rewrite app_nil_r.
  - unfold mbind, cg_bind, cg.bind. rewrite Hgen.
    rewrite (to_code_from out i p) by done.
    destruct (IH (log ++ [ cg.NewPvariable i;
                           cg.Add (cg.Call (cg.mkMockObj i) "set_port" [p]);
                           cg.RegisterComponent (cg.mkMockObj i) out ]))
      as (log' & Hrun & Hadded).
    exists log'. split; [done|]. rewrite Hadded, added_app. simpl.
    rewrite <- app_assoc. simpl. unfold set_port_call, port_configuration.
    by rewrite Hi, Hp.
Qed.

(** Without [MULTI_CONF] a second block would be an error. *)
Lemma single_conf_rejects_two (m : loader.ComponentManifest) (b1 b2 : config) :
  loader.multi_conf m = false →
  is_ok (loader.validate_blocks m [b1; b2]) = false.
Proof. intros Hm. unfold loader.validate_blocks. by rewrite Hm. Qed.

(** C10: whatever the blocks of the component hold, declaring it loads
    the socket component, and the network component has to be present:
    it is reported missing exactly when the configuration lacks it. *)
Theorem socket_and_network (host : version) (py : builtins)
    (declare_id : string → validator value) (COMPONENT_SCHEMA : cv.Schema)
    (top : loader.top_config) (blocks : list config) :
  let m := stream_server host py declare_id COMPONENT_SCHEMA in
  let declared := <[DOMAIN := blocks]> top in
  loader.auto_load m = ["socket"%string]
  ∧ loader.dependencies m = ["network"%string]
  ∧ is_Some (loader.load_auto m declared !! "socket"%string)
  ∧ (loader.missing_dependencies m declared = []
     ↔ is_Some (top !! "network"%string))
  ∧ (top !! "network"%string = None →
     loader.missing_dependencies m declared = ["network"%string]).
Proof.
  intros m declared. split; [done|]. split; [done|].
  assert (declared !! "network"%string = top !! "network"%string) as Hnet.
  { unfold declared. rewrite lookup_insert_ne; [done | key_ne]. }
  split; [|split].
  - unfold loader.load_auto. simpl.
    destruct (declared !! "socket"%string) eqn:Hs; [by rewrite Hs|].
    by rewrite lookup_insert_eq.
  - unfold loader.missing_dependencies.
    change (loader.dependencies m) with ["network"%string].
    rewrite filter_cons, filter_nil, Hnet.
    destruct (top !! "network"%string) eqn:Ht.
    + by rewrite decide_False.
    + rewrite decide_True by done. split; [done | by intros [? ?]].
  - intros Hnone. unfold loader.missing_dependencies.
    change (loader.dependencies m) with ["network"%string].
    rewrite filter_cons, filter_nil, Hnet. by rewrite decide_True.
Qed.

Lemma socket_and_network_witness :
  is_Some (loader.load_auto
             (stream_server sample_version ascii_builtins sample_declare_id
                sample_COMPONENT_SCHEMA)
             {[ DOMAIN := [ ({[ CONF_PORT := VInt 2323 ]} : config) ] ]}
           !! "socket"%string)
  ∧ loader.missing_dependencies
      (stream_server sample_version ascii_builtins sample_declare_id sample_COMPONENT_SCHEMA)
      {[ DOMAIN := [ ({[ CONF_PORT := VInt 2323 ]} : config) ] ]}
    = ["network"%string].
Proof.
  destruct (socket_and_network sample_version ascii_builtins sample_declare_id
              sample_COMPONENT_SCHEMA ∅ [ {[ CONF_PORT := VInt 2323 ]} ])
    as (_ & _ & Hsocket & _ & Hnetwork).
  split; [exact Hsocket | exact (Hnetwork eq_refl)].
Defined.

(** ** The runtime bridge *)

Section bridge_facts.

Import bridge.

Implicit Types (c : Connection) (st : bridge_state) (ev : events)
  (bytes : list byte).

Lemma enqueue_bounded (cap : nat) (queue bytes : list byte) :
  (length (enqueue cap queue bytes) ≤ cap)%nat.
Proof. unfold enqueue. rewrite length_drop. lia. Qed.


(** When a broadcast does not fit, the oldest bytes go and the newest
    stay. *)
Lemma enqueue_keeps_newest (cap : nat) (queue bytes : list byte) :
  enqueue cap queue bytes `suffix_of` queue ++ bytes.
Proof. apply suffix_drop. Qed.














End bridge_facts.



(** In the scenario both clients end with the four bytes, verbatim. *)
Example both_clients_receive_ok :
  bridge.received <$> bridge.clients (bridge.run sample_bridge sample_ticks)
  = [ sample_bytes; sample_bytes ].
Proof. reflexivity. Qed.

(** Past the capacity the oldest bytes are dropped, so fidelity does need
    the assumption that nothing overflows. *)
Example overflow_drops_oldest :
  bridge.enqueue 3 [Byte.x4f] [Byte.x4b; Byte.x0d; Byte.x0a]
  = [Byte.x4b; Byte.x0d; Byte.x0a].
Proof. reflexivity. Qed.

(** * Further properties of the module *)

(** ** More on calling the schema *)

Lemma fill_defaults_cons (e : cv.marker * validator value) (s : cv.Schema)
    (d : config) :
  cv.fill_defaults (e :: s) d = cv.fill_defaults s (cv.insert_default d e).
Proof. done. Qed.

Lemma validate_ext (s : cv.Schema) (d d' : config) :
  cv.fill_defaults s d = cv.fill_defaults s d' →
  cv.validate s d = cv.validate s d'.
Proof. intros Hfill. unfold cv.validate. by rewrite Hfill. Qed.

Lemma validate_ok_intro (s : cv.Schema) (d : config) :
  is_ok (cv.validate s d) = true →
  cv.validate s d
  = Ok (map_imap (cv.item_output s) (cv.fill_defaults s d)).
Proof.
  intros Hok. destruct (cv.validate s d) as [out|] eqn:Hout; [|done].
  by apply validate_output in Hout as ->.
Qed.

Lemma item_output_ok (s : cv.Schema) (k : string) (v : value) :
  is_ok (cv.validate_item s k v) = true ↔ is_Some (cv.item_output s k v).
Proof.
  unfold cv.item_output. destruct (cv.validate_item s k v); simpl.
  - split; [by eexists | done].
  - split; [done | by intros [? ?]].
Qed.

(** The keys of the output are those of the data with its defaults. *)
Lemma validate_keys (s : cv.Schema) (d out : config) (k : string) :
  cv.validate s d = Ok out →
  is_Some (out !! k) ↔ is_Some (cv.fill_defaults s d !! k).
Proof.
  intros Hout. pose proof Hout as Hok.
  apply (f_equal is_ok), validate_is_ok in Hok as [Hall _].
  rewrite (validate_lookup _ _ _ k Hout).
  destruct (cv.fill_defaults s d !! k) as [v|] eqn:Hk; simpl.
  - split; [by eexists|]. intros _. apply item_output_ok. by apply Hall.
  - done.
Qed.

Lemma validate_item_ok_key (s : cv.Schema) (k : string) (v : value) :
  is_ok (cv.validate_item s k v) = true → k ∈ keys s.
Proof.
  intros Hok. destruct (decide (k ∈ keys s)) as [|Hno]; [done|].
  apply find_entry_None in Hno. unfold cv.validate_item in Hok.
  by rewrite Hno in Hok.
Qed.

Section more_acceptance.

Variable host : version.
Variable py : builtins.
Variable declare_id : string → validator value.
Variable COMPONENT_SCHEMA : cv.Schema.
Hypothesis Hkeeps : keeps_own_keys COMPONENT_SCHEMA = true.

Implicit Types (d : config) (k : string) (v : value).

Local Abbreviation SCHEMA :=
  (cv.extend [ (cv.GenerateID, declare_id StreamServerComponent);
               (cv.Optional CONF_PORT (Some (VInt 6638)), cv.port py) ]
             COMPONENT_SCHEMA).
Local Abbreviation REST := (REST_SCHEMA declare_id COMPONENT_SCHEMA).
Local Abbreviation CONFIG :=
  (CONFIG_SCHEMA host py declare_id COMPONENT_SCHEMA).

Lemma fill_schema_id d :
  cv.fill_defaults SCHEMA d !! CONF_ID = Some (default VNone (d !! CONF_ID)).
Proof.
  rewrite fill_schema by done. rewrite lookup_insert_ne by key_ne.
  rewrite rest_shape, fill_defaults_cons by done.
  rewrite fill_defaults_lookup_ne by by apply inherited_no_id.
  unfold cv.insert_default. simpl.
  destruct (d !! CONF_ID) as [x|] eqn:Hid; simpl; [done|].
  apply lookup_insert_eq.
Qed.

Lemma validate_item_id v :
  cv.validate_item SCHEMA CONF_ID v
  = match declare_id StreamServerComponent v with
    | Ok v' => Ok v'
    | Raise e es => Raise (cv.prepend CONF_ID e) (cv.prepend CONF_ID <$> es)
    end.
Proof. unfold cv.validate_item. by rewrite find_entry_id. Qed.

Lemma item_output_port v :
  port_number v → cv.item_output SCHEMA CONF_PORT v = Some v.
Proof.
  intros Hv. unfold cv.item_output.
  rewrite validate_item_port by done.
  by rewrite port_number_accepted.
Qed.

(** Replacing the port of the filled mapping by a valid one keeps it
    accepted. *)
Lemma filled_port_replaced (g : config) v :
  port_number v →
  map_Forall (λ k x, is_ok (cv.validate_item SCHEMA k x) = true) g →
  map_Forall (λ k x, is_ok (cv.validate_item SCHEMA k x) = true)
             (<[CONF_PORT := v]> g).
Proof.
  intros Hv Hall k x. rewrite lookup_insert.
  case_decide as Hk; [|by apply Hall].
  intros [= <-]. subst k. rewrite port_item_ok by done.
  by rewrite port_number_accepted.
Qed.

(** The identifier of the output is what the identifier validator
    returns. *)
Lemma validated_identifier d out :
  cv.validate SCHEMA d = Ok out →
  ∃ v, declare_id StreamServerComponent (default VNone (d !! CONF_ID)) = Ok v
       ∧ out !! CONF_ID = Some v.
Proof.
  intros Hout. rewrite (validate_lookup _ _ _ CONF_ID Hout).
  rewrite fill_schema_id. simpl.
  apply (f_equal is_ok), validate_is_ok in Hout as [Hall _].
  specialize (Hall CONF_ID _ (fill_schema_id d)).
  simpl in Hall. unfold cv.item_output.
  rewrite validate_item_id in *.
  destruct (declare_id StreamServerComponent _) as [v|]; [|done].
  by exists v.
Qed.

End more_acceptance.

(** ** The port entry *)

(** X2: leaving the port out is the same as writing [port: 6638]: the
    two configurations have the same result, accepted or not, with the
    same output or the same errors. *)
Theorem omitted_port_is_6638 (host : version) (py : builtins)
    (declare_id : string → validator value) (COMPONENT_SCHEMA : cv.Schema)
    (cfg : config) :
  keeps_own_keys COMPONENT_SCHEMA = true →
  cfg !! CONF_PORT = None →
  CONFIG_SCHEMA host py declare_id COMPONENT_SCHEMA cfg
  = CONFIG_SCHEMA host py declare_id COMPONENT_SCHEMA
      (<[CONF_PORT := VInt 6638]> cfg).
Proof.
  intros Hkeeps Hport. rewrite !CONFIG_SCHEMA_unfold.
  destruct (version_ltb host (2022, 3, 0)); [done|].
  apply validate_ext. rewrite fill_supplied by done.
  rewrite fill_schema by done. by rewrite Hport.
Qed.

Lemma omitted_port_is_6638_witness :
  keeps_own_keys sample_COMPONENT_SCHEMA = true
  ∧ ({[ CONF_ID := VInt 7 ]} : config) !! CONF_PORT = None
  ∧ SAMPLE_SCHEMA {[ CONF_ID := VInt 7 ]}
    = SAMPLE_SCHEMA (<[CONF_PORT := VInt 6638]> {[ CONF_ID := VInt 7 ]}).
Proof.
  split; [reflexivity|]. split; [reflexivity|].
  apply (omitted_port_is_6638 sample_version ascii_builtins sample_declare_id
           sample_COMPONENT_SCHEMA {[ CONF_ID := VInt 7 ]}); reflexivity.
Defined.

(** X3: the port is validated on its own: in an accepted configuration,
    putting another integer from 1 to 65535 in place of the port (or
    adding one) gives an accepted configuration whose output differs in
    the port alone. *)
Theorem port_replaced (host : version) (py : builtins)
    (declare_id : string → validator value) (COMPONENT_SCHEMA : cv.Schema)
    (cfg out : config) (v : value) :
  keeps_own_keys COMPONENT_SCHEMA = true →
  CONFIG_SCHEMA host py declare_id COMPONENT_SCHEMA cfg = Ok out →
  port_number v →
  CONFIG_SCHEMA host py declare_id COMPONENT_SCHEMA (<[CONF_PORT := v]> cfg)
  = Ok (<[CONF_PORT := v]> out).
Proof.
  intros Hkeeps Hout Hv.
  assert (version_at_least host 2022 3 0) as Hhost.
  { eapply CONFIG_SCHEMA_ok_version. by rewrite Hout. }
  rewrite CONFIG_SCHEMA_supported in * by done.
  pose proof Hout as Hok.
  apply (f_equal is_ok), validate_is_ok in Hok as [Hall Hmissing].
  apply validate_output in Hout as ->.
  rewrite fill_schema in * by done.
  rewrite missing_required_rest in Hmissing by done.
  set (g := cv.fill_defaults (REST_SCHEMA declare_id COMPONENT_SCHEMA) cfg)
    in *.
  set (pv := default (VInt 6638) (cfg !! CONF_PORT)) in *.
  assert (cv.fill_defaults
            (cv.extend
               [ (cv.GenerateID, declare_id StreamServerComponent);
                 (cv.Optional CONF_PORT (Some (VInt 6638)), cv.port py) ]
               COMPONENT_SCHEMA)
            (<[CONF_PORT := v]> cfg)
          = <[CONF_PORT := v]> (<[CONF_PORT := pv]> g)) as Hfill.
  { rewrite fill_supplied by done. by rewrite insert_insert_eq. }
  rewrite validate_ok_intro.
  - rewrite Hfill. f_equal. apply map_imap_insert_Some.
    by apply item_output_port.
  - apply validate_is_ok. rewrite Hfill. split.
    + by apply filled_port_replaced.
    + rewrite insert_insert_eq. by rewrite missing_required_rest.
Qed.

Lemma port_replaced_witness :
  keeps_own_keys sample_COMPONENT_SCHEMA = true
  ∧ port_number (VInt 23)
  ∧ ∃ out,
      SAMPLE_SCHEMA {[ CONF_ID := VStr "gps" ]} = Ok out
      ∧ SAMPLE_SCHEMA (<[CONF_PORT := VInt 23]> {[ CONF_ID := VStr "gps" ]})
        = Ok (<[CONF_PORT := VInt 23]> out).
Proof.
  assert (port_number (VInt 23)) as Hv.
  { exists 23. split; [reflexivity | lia]. }
  split; [reflexivity|]. split; [exact Hv|].
  destruct (SAMPLE_SCHEMA {[ CONF_ID := VStr "gps" ]})
    as [out|error more] eqn:Hout; [|by vm_compute in Hout].
  exists out. split; [reflexivity|].
  exact (port_replaced sample_version ascii_builtins sample_declare_id
           sample_COMPONENT_SCHEMA _ out (VInt 23) eq_refl Hout Hv).
Defined.

(** ** The keys of a validated configuration *)

(** X4: validation drops no key and invents none: every key of the
    configuration is a key of the validated one, and every key of the
    validated one is [id], [port] or a key of the component schema. *)
Theorem validated_key_set (host : version) (py : builtins)
    (declare_id : string → validator value) (COMPONENT_SCHEMA : cv.Schema)
    (cfg out : config) :
  CONFIG_SCHEMA host py declare_id COMPONENT_SCHEMA cfg = Ok out →
  (∀ k, is_Some (cfg !! k) → is_Some (out !! k))
  ∧ (∀ k, is_Some (out !! k) →
          k = CONF_ID ∨ k = CONF_PORT ∨ k ∈ keys COMPONENT_SCHEMA).
Proof.
  intros Hout.
  assert (version_at_least host 2022 3 0) as Hhost.
  { eapply CONFIG_SCHEMA_ok_version. by rewrite Hout. }
  rewrite CONFIG_SCHEMA_supported in Hout by done.
  split; intros k.
  - intros [x Hx]. apply (validate_keys _ _ _ k Hout).
    exists x. by apply fill_defaults_lookup_Some.
  - intros [x Hx]%(validate_keys _ _ _ k Hout).
    apply (f_equal is_ok), validate_is_ok in Hout as [Hall _].
    apply schema_keys with (py := py) (declare_id := declare_id).
    eapply validate_item_ok_key. by apply Hall.
Qed.

Lemma validated_key_set_witness :
  ∃ out,
    SAMPLE_SCHEMA {[ "setup_priority"%string := VInt 100 ]} = Ok out
    ∧ is_Some (out !! "setup_priority"%string).
Proof.
  destruct (SAMPLE_SCHEMA {[ "setup_priority"%string := VInt 100 ]})
    as [out|error more] eqn:Hout; [|by vm_compute in Hout].
  exists out. split; [reflexivity|].
  destruct (validated_key_set sample_version ascii_builtins sample_declare_id
              sample_COMPONENT_SCHEMA _ out Hout) as [Hkeeps _].
  apply Hkeeps. rewrite lookup_singleton_eq. by eexists.
Defined.

(** ** The identifier entry *)

(** X5: the identifier of a validated configuration is what the
    identifier validator of class StreamServerComponent returns on the
    supplied [id], or on [None] when there is none; when that validator
    raises, on a supported host its first error is reported under the key
    [id]. *)
Theorem identifier_declared (host : version) (py : builtins)
    (declare_id : string → validator value) (COMPONENT_SCHEMA : cv.Schema)
    (cfg : config) :
  keeps_own_keys COMPONENT_SCHEMA = true →
  (∀ out,
     CONFIG_SCHEMA host py declare_id COMPONENT_SCHEMA cfg = Ok out →
     ∃ v, declare_id StreamServerComponent (default VNone (cfg !! CONF_ID))
          = Ok v
          ∧ out !! CONF_ID = Some v)
  ∧ (∀ e es,
       version_at_least host 2022 3 0 →
       declare_id StreamServerComponent (default VNone (cfg !! CONF_ID))
       = Raise e es →
       mkInvalid (kind e) (CONF_ID :: path e)
         ∈ errors_of (CONFIG_SCHEMA host py declare_id COMPONENT_SCHEMA cfg)).
Proof.
  intros Hkeeps. split.
  - intros out Hout.
    assert (version_at_least host 2022 3 0) as Hhost.
    { eapply CONFIG_SCHEMA_ok_version. by rewrite Hout. }
    rewrite CONFIG_SCHEMA_supported in Hout by done.
    rewrite (validate_lookup _ _ _ CONF_ID Hout).
    rewrite fill_schema_id by done. simpl.
    apply (f_equal is_ok), validate_is_ok in Hout as [Hall _].
    specialize (Hall CONF_ID _ (fill_schema_id _ _ _ Hkeeps cfg)).
    simpl in Hall. unfold cv.item_output.
    rewrite validate_item_id in * by done.
    destruct (declare_id StreamServerComponent _) as [v|]; [|done].
    by exists v.
  - intros e es Hhost Hraise. rewrite CONFIG_SCHEMA_supported by done.
    apply (validate_item_error _ _ CONF_ID
             (default VNone (cfg !! CONF_ID))).
    + by apply fill_schema_id.
    + rewrite validate_item_id by done. rewrite Hraise. by left.
Qed.

Lemma identifier_declared_witness :
  keeps_own_keys sample_COMPONENT_SCHEMA = true
  ∧ version_at_least sample_version 2022 3 0
  ∧ mkInvalid (InvalidValue "ID must be a string") [CONF_ID]
      ∈ errors_of (SAMPLE_SCHEMA {[ CONF_ID := VInt 7 ]}).
Proof.
  assert (version_at_least sample_version 2022 3 0) as Hhost.
  { unfold version_at_least; simpl; lia. }
  split; [reflexivity|]. split; [exact Hhost|].
  destruct (identifier_declared sample_version ascii_builtins sample_declare_id
              sample_COMPONENT_SCHEMA {[ CONF_ID := VInt 7 ]} eq_refl)
    as [_ Hraise].
  exact (Hraise _ _ Hhost eq_refl).
Defined.

(** ** From validation to the generated call *)

(** X6: whatever the configuration, once it is validated the one
    [set_port] call that [to_code] adds has as its argument what the port
    validator returns on the supplied port, or on 6638 when there is none:
    an integer from 1 to 65535, or the boolean true, which stands for
    1. *)
Theorem set_port_argument_in_range (host : version) (py : builtins)
    (declare_id : string → validator value) (COMPONENT_SCHEMA : cv.Schema)
    (cfg out : config) :
  keeps_own_keys COMPONENT_SCHEMA = true →
  CONFIG_SCHEMA host py declare_id COMPONENT_SCHEMA cfg = Ok out →
  ∃ log var p n,
    cg.run (to_code out) = inr (tt, log)
    ∧ added log = [ cg.Call var "set_port" [p] ]
    ∧ cv.port py (default (VInt 6638) (cfg !! CONF_PORT)) = Ok p
    ∧ 1 ≤ n ≤ 65535
    ∧ (p = VInt n ∨ (p = VBool true ∧ n = 1)).
Proof.
  intros Hkeeps Hout.
  destruct (validated_keys _ _ _ _ _ _ Hkeeps Hout)
    as (i & p & Hi & Hp & Hdef).
  destruct (port_returned _ _ _ Hdef) as (n & Hn & Hshape).
  eexists _, (cg.mkMockObj i), p, n.
  split; [by apply to_code_run|]. split; [done|]. split; [done|].
  split; [exact Hn | exact Hshape].
Qed.

Lemma set_port_argument_in_range_witness :
  keeps_own_keys sample_COMPONENT_SCHEMA = true
  ∧ ∃ out log var p n,
      SAMPLE_SCHEMA {[ CONF_PORT := VStr "8080" ]} = Ok out
      ∧ cg.run (to_code out) = inr (tt, log)
      ∧ added log = [ cg.Call var "set_port" [p] ]
      ∧ 1 ≤ n ≤ 65535
      ∧ (p = VInt n ∨ (p = VBool true ∧ n = 1)).
Proof.
  split; [reflexivity|].
  destruct (SAMPLE_SCHEMA {[ CONF_PORT := VStr "8080" ]})
    as [out|error more] eqn:Hout; [|by vm_compute in Hout].
  destruct (set_port_argument_in_range sample_version ascii_builtins
              sample_declare_id sample_COMPONENT_SCHEMA _ out eq_refl Hout)
    as (log & var & p & n & Hrun & Hadded & _ & Hn & Hshape).
  exists out, log, var, p, n. split; [reflexivity|].
  split; [exact Hrun|]. split; [exact Hadded|].
  split; [exact Hn | exact Hshape].
Defined.

(** ** A component schema of optional keys *)

Lemma extend_cons (b o : list (cv.marker * validator value))
    (e : cv.marker * validator value) :
  cv.extend b (e :: o)
  = cv.extend
      (filter (λ x, cv.key_literal x.1 ≠ cv.key_literal e.1) b ++ [e]) o.
Proof. done. Qed.

Lemma filter_fresh_key (b : list (cv.marker * validator value))
    (e : cv.marker * validator value) :
  cv.key_literal e.1 ∉ keys b →
  filter (λ x, cv.key_literal x.1 ≠ cv.key_literal e.1) b = b.
Proof.
  unfold keys. induction b as [|x b IH]; intros Hfresh; [done|].
  rewrite fmap_cons in Hfresh. apply not_elem_of_cons in Hfresh as [Hx Hb].
  rewrite filter_cons_True by congruence. f_equal. by apply IH.
Qed.

Lemma extend_NoDup (o : list (cv.marker * validator value)) :
  ∀ b : list (cv.marker * validator value),
  NoDup (keys (b ++ o)) → cv.extend b o = b ++ o.
Proof.
  induction o as [|e o IH]; intros b Hnodup.
  - unfold cv.extend. simpl. by rewrite app_nil_r.
  - rewrite extend_cons, filter_fresh_key.
    + rewrite IH; by rewrite <- app_assoc.
    + unfold keys in *. rewrite fmap_app, fmap_cons in Hnodup.
      apply NoDup_app in Hnodup as (_ & Hdisjoint & _).
      intros Hin. apply (Hdisjoint _ Hin). by left.
Qed.

Lemma all_optional_cons (e : cv.marker * validator value) (s : cv.Schema) :
  all_optional (e :: s) = true →
  (∃ k, e.1 = cv.Optional k None) ∧ all_optional s = true.
Proof.
  unfold all_optional. simpl. intros [He Hs]%andb_prop. split; [|done].
  destruct e.1 as [|k [|]]; try done. by exists k.
Qed.

Lemma fill_defaults_optional (s : cv.Schema) : ∀ d : config,
  all_optional s = true → cv.fill_defaults s d = d.
Proof.
  induction s as [|e s IH]; intros d Hs; [done|].
  apply all_optional_cons in Hs as [[k Hk] Hs].
  rewrite fill_defaults_cons, IH by done.
  unfold cv.insert_default. by rewrite Hk.
Qed.

Lemma missing_required_optional (s : cv.Schema) (d : config) :
  all_optional s = true → cv.missing_required s d = [].
Proof.
  unfold cv.missing_required. induction s as [|e s IH]; intros Hs; [done|].
  apply all_optional_cons in Hs as [[k Hk] Hs].
  rewrite (filter_cons_False _ e); [by apply IH|].
  rewrite Hk. simpl. by intros [[] _].
Qed.

Section plain_component_schema.

Variable host : version.
Variable py : builtins.
Variable declare_id : string → validator value.
Variable COMPONENT_SCHEMA : cv.Schema.
Hypothesis Hplain : plain COMPONENT_SCHEMA.

Implicit Types (d : config) (k : string) (v : value).

Local Abbreviation ID_ENTRY := (cv.GenerateID, declare_id StreamServerComponent).
Local Abbreviation SCHEMA :=
  (cv.extend [ ID_ENTRY; (cv.Optional CONF_PORT (Some (VInt 6638)), cv.port py) ]
             COMPONENT_SCHEMA).
Local Abbreviation REST := (REST_SCHEMA declare_id COMPONENT_SCHEMA).
Local Abbreviation CONFIG :=
  (CONFIG_SCHEMA host py declare_id COMPONENT_SCHEMA).

Lemma plain_keeps : keeps_own_keys COMPONENT_SCHEMA = true.
Proof. by destruct Hplain. Qed.

Lemma plain_inherited : cv.extend [] COMPONENT_SCHEMA = COMPONENT_SCHEMA.
Proof. destruct Hplain as (_ & _ & Hnodup). by apply extend_NoDup. Qed.

Lemma plain_rest : REST = ID_ENTRY :: COMPONENT_SCHEMA.
Proof. rewrite rest_shape by apply plain_keeps. by rewrite plain_inherited. Qed.

Lemma plain_fill d :
  cv.fill_defaults SCHEMA d
  = <[CONF_PORT := default (VInt 6638) (d !! CONF_PORT)]>
      (<[CONF_ID := default VNone (d !! CONF_ID)]> d).
Proof.
  destruct Hplain as (_ & Hopt & _).
  rewrite fill_schema by apply plain_keeps. f_equal.
  rewrite plain_rest, fill_defaults_cons, fill_defaults_optional by done.
  unfold cv.insert_default. simpl.
  destruct (d !! CONF_ID) as [x|] eqn:Hid; simpl; [|done].
  symmetry. by apply insert_id.
Qed.

Lemma plain_missing (g : config) v :
  cv.missing_required SCHEMA (<[CONF_PORT := v]> g) = [].
Proof.
  destruct Hplain as (_ & Hopt & _).
  rewrite missing_required_rest by apply plain_keeps. rewrite plain_rest.
  unfold cv.missing_required.
  rewrite (filter_cons_False _ ID_ENTRY) by (simpl; intros [[] _]).
  by apply missing_required_optional.
Qed.

Lemma plain_item k v :
  k ≠ CONF_ID → k ≠ CONF_PORT →
  cv.validate_item SCHEMA k v = cv.validate_item COMPONENT_SCHEMA k v.
Proof.
  intros Hid Hport. rewrite validate_item_rest by (apply plain_keeps || done).
  unfold cv.validate_item. rewrite plain_rest.
  rewrite find_entry_cons_ne; [done | simpl; congruence].
Qed.

(** Acceptance, entry by entry. *)
Lemma plain_accepted d :
  is_ok (cv.validate SCHEMA d) = true
  ↔ port_accepted py (default (VInt 6638) (d !! CONF_PORT))
    ∧ is_ok (declare_id StreamServerComponent (default VNone (d !! CONF_ID)))
      = true
    ∧ ∀ k v, d !! k = Some v → k ≠ CONF_ID → k ≠ CONF_PORT →
             is_ok (cv.validate_item COMPONENT_SCHEMA k v) = true.
Proof.
  pose proof plain_keeps as Hkeeps.
  rewrite validate_is_ok, plain_fill, plain_missing.
  set (pv := default (VInt 6638) (d !! CONF_PORT)).
  set (iv := default VNone (d !! CONF_ID)).
  assert (is_ok (cv.validate_item SCHEMA CONF_ID iv)
          = is_ok (declare_id StreamServerComponent iv)) as Hid.
  { rewrite validate_item_id by done.
    by destruct (declare_id StreamServerComponent iv). }
  rewrite <- port_accepted_ok, <- Hid, <- (port_item_ok py declare_id _ Hkeeps).
  split.
  - intros [Hall _]. split; [|split].
    + apply Hall. apply lookup_insert_eq.
    + apply Hall. rewrite lookup_insert_ne by key_ne. apply lookup_insert_eq.
    + intros k v Hk Hki Hkp. rewrite <- plain_item by done.
      apply Hall. by rewrite !lookup_insert_ne.
  - intros (Hp & Hi & Hothers). split; [|done].
    intros k v. rewrite lookup_insert. case_decide as Hkp.
    { intros [= <-]. by subst k. }
    rewrite lookup_insert. case_decide as Hki.
    { intros [= <-]. by subst k. }
    intros Hk. rewrite plain_item by done. by apply Hothers.
Qed.

Lemma plain_output d out k :
  cv.validate SCHEMA d = Ok out →
  k ≠ CONF_ID → k ≠ CONF_PORT →
  out !! k = d !! k ≫= cv.item_output COMPONENT_SCHEMA k.
Proof.
  intros Hout Hki Hkp. rewrite (validate_lookup _ _ _ k Hout), plain_fill.
  rewrite !lookup_insert_ne by done.
  destruct (d !! k) as [v|]; simpl; [|done].
  unfold cv.item_output. by rewrite plain_item.
Qed.

End plain_component_schema.

(** X7: when the component schema has optional keys only, without
    defaults, a configuration is accepted exactly when the host version is
    at least 2022.3.0, its port (6638 when left out) stands for an integer
    from 1 to 65535 (an integer or a boolean, a float without fractional
    part, or a text that Python reads as an integer), the identifier
    validator accepts its [id] ([None] when left out), and each other key
    is a key of the component schema whose entry accepts the value. *)
Theorem acceptance_characterised (host : version) (py : builtins)
    (declare_id : string → validator value) (COMPONENT_SCHEMA : cv.Schema)
    (cfg : config) :
  plain COMPONENT_SCHEMA →
  is_ok (CONFIG_SCHEMA host py declare_id COMPONENT_SCHEMA cfg) = true
  ↔ version_at_least host 2022 3 0
    ∧ port_accepted py (default (VInt 6638) (cfg !! CONF_PORT))
    ∧ is_ok (declare_id StreamServerComponent
               (default VNone (cfg !! CONF_ID))) = true
    ∧ ∀ k v, cfg !! k = Some v → k ≠ CONF_ID → k ≠ CONF_PORT →
             is_ok (cv.validate_item COMPONENT_SCHEMA k v) = true.
Proof.
  intros Hplain. split.
  - intros Hok. pose proof (CONFIG_SCHEMA_ok_version _ _ _ _ _ Hok) as Hhost.
    split; [done|]. rewrite CONFIG_SCHEMA_supported in Hok by done.
    by apply plain_accepted in Hok.
  - intros (Hhost & Hrest). rewrite CONFIG_SCHEMA_supported by done.
    by apply plain_accepted.
Qed.

Lemma sample_plain : plain sample_COMPONENT_SCHEMA.
Proof.
  split; [reflexivity|]. split; [reflexivity|].
  unfold keys, sample_COMPONENT_SCHEMA. simpl.
  apply NoDup_singleton.
Defined.

Lemma acceptance_characterised_witness :
  plain sample_COMPONENT_SCHEMA
  ∧ is_ok (SAMPLE_SCHEMA {[ CONF_PORT := VStr "8080" ]}) = true
  ∧ (is_ok (SAMPLE_SCHEMA {[ CONF_PORT := VStr "8080" ]}) = true
     ↔ version_at_least sample_version 2022 3 0
       ∧ port_accepted ascii_builtins
           (default (VInt 6638)
              (({[ CONF_PORT := VStr "8080" ]} : config) !! CONF_PORT))
       ∧ is_ok (sample_declare_id StreamServerComponent
                  (default VNone
                     (({[ CONF_PORT := VStr "8080" ]} : config) !! CONF_ID)))
         = true
       ∧ ∀ k v, ({[ CONF_PORT := VStr "8080" ]} : config) !! k = Some v →
                k ≠ CONF_ID → k ≠ CONF_PORT →
                is_ok (cv.validate_item sample_COMPONENT_SCHEMA k v) = true).
Proof.
  split; [exact sample_plain|]. split; [by vm_compute|].
  exact (acceptance_characterised sample_version ascii_builtins
           sample_declare_id sample_COMPONENT_SCHEMA
           {[ CONF_PORT := VStr "8080" ]} sample_plain).
Defined.

(** X8: when the component schema has optional keys only, without
    defaults, validation adds nothing besides [id] and [port]: every other
    key of the validated configuration is a key of the configuration, with
    the value its component-schema entry returns, and a key the
    configuration lacks is lacking in the validated one too. *)
Theorem other_keys_validated (host : version) (py : builtins)
    (declare_id : string → validator value) (COMPONENT_SCHEMA : cv.Schema)
    (cfg out : config) (k : string) :
  plain COMPONENT_SCHEMA →
  CONFIG_SCHEMA host py declare_id COMPONENT_SCHEMA cfg = Ok out →
  k ≠ CONF_ID → k ≠ CONF_PORT →
  out !! k = cfg !! k ≫= cv.item_output COMPONENT_SCHEMA k.
Proof.
  intros Hplain Hout Hki Hkp.
  assert (version_at_least host 2022 3 0) as Hhost.
  { eapply CONFIG_SCHEMA_ok_version. by rewrite Hout. }
  rewrite CONFIG_SCHEMA_supported in Hout by done.
  by eapply plain_output.
Qed.

Lemma other_keys_validated_witness :
  plain sample_COMPONENT_SCHEMA
  ∧ ∃ out,
      SAMPLE_SCHEMA {[ "setup_priority"%string := VInt 100 ]} = Ok out
      ∧ out !! "setup_priority"%string = Some (VInt 100).
Proof.
  split; [exact sample_plain|].
  destruct (SAMPLE_SCHEMA {[ "setup_priority"%string := VInt 100 ]})
    as [out|error more] eqn:Hout; [|by vm_compute in Hout].
  exists out. split; [reflexivity|].
  rewrite (other_keys_validated sample_version ascii_builtins sample_declare_id
             sample_COMPONENT_SCHEMA _ out "setup_priority"
             sample_plain Hout); [reflexivity | key_ne | key_ne].
Defined.

(** ** Several blocks and their identifiers *)

Lemma collect_oks {A} (outs : list A) : loader.collect (Ok <$> outs) = Ok outs.
Proof.
  unfold loader.collect.
  assert (mbind errors_of (Ok <$> outs) = @nil Invalid) as ->.
  { induction outs as [|o outs IH]; [done|]. by rewrite fmap_cons, bind_cons, IH. }
  f_equal. induction outs as [|o outs IH]; [done|]. simpl. by f_equal.
Qed.

Lemma validated_results {A B} (f : A → result B) (blocks : list A)
    (outs : list B) :
  Forall2 (λ b o, f b = Ok o) blocks outs → f <$> blocks = Ok <$> outs.
Proof. induction 1; [done|]. rewrite !fmap_cons. by f_equal. Qed.

Lemma string_length_append (a b : string) :
  String.length (String.append a b)
  = (String.length a + String.length b)%nat.
Proof. induction a as [|c a IH]; simpl; [done | by rewrite IH]. Qed.

Lemma longest_bound (registered : list (option string)) (name : string) :
  Some name ∈ registered → (String.length name ≤ longest registered)%nat.
Proof.
  unfold longest. induction registered as [|x l IH]; intros Hin.
  - by apply elem_of_nil in Hin.
  - simpl. apply elem_of_cons in Hin as [<-|Hin]; simpl; [lia|].
    specialize (IH Hin). lia.
Qed.

Lemma underscores_length (n : nat) : String.length (underscores n) = S n.
Proof. induction n as [|n IH]; simpl; [done | by rewrite IH]. Qed.

Lemma sample_fresh_gives_fresh : gives_fresh sample_fresh.
Proof.
  intros type registered Hin. apply longest_bound in Hin.
  unfold sample_fresh in Hin.
  rewrite !string_length_append, underscores_length in Hin. lia.
Qed.

Section id_pass_facts.

Import loader.

Variable fresh : string → list (option string) → string.
Variable taken : list string.
Hypothesis Hfresh : gives_fresh fresh.

Implicit Types (o out : config) (outs rest done : list config).

Lemma name_of_declared (l : list config) (n : string) :
  n ∈ omap name_of l → Some n ∈ omap declared l.
Proof.
  intros (o & Ho & Hn)%list_elem_of_omap. apply list_elem_of_omap.
  exists o. split; [done|]. unfold name_of in Hn.
  destruct (declared o) as [name|]; [by subst name | done].
Qed.

Lemma redefined_nil outs : ∀ seen : list string,
  NoDup (omap name_of outs) →
  (∀ n, n ∈ omap name_of outs → n ∉ seen) →
  redefined seen outs = [].
Proof.
  induction outs as [|o outs IH]; intros seen Hnodup Hseen; [done|].
  simpl in *. unfold name_of in *.
  destruct (declared o) as [[n|]|]; simpl in *; [|by apply IH..].
  apply NoDup_cons in Hnodup as [Hn Hnodup].
  rewrite bool_decide_eq_false_2 by (apply Hseen; by left).
  apply IH; [done|]. intros m Hm. apply not_elem_of_cons. split.
  - intros ->. done.
  - apply Hseen. by right.
Qed.

Lemma name_of_insert o (n : string) (type : string) :
  name_of (<[CONF_ID := VID (Some n) true type]> o) = Some n.
Proof. unfold name_of, declared. by rewrite lookup_insert_eq. Qed.

Lemma resolve_spec rest : ∀ done,
  Forall (λ o, is_Some (declared o)) rest →
  NoDup (taken ++ omap name_of (done ++ rest)) →
  Forall2 resolved rest (resolve fresh taken done rest)
  ∧ NoDup (taken ++ omap name_of (done ++ resolve fresh taken done rest))
  ∧ Forall (λ out, is_Some (name_of out)) (resolve fresh taken done rest).
Proof.
  induction rest as [|o rest IH]; intros done Hdecl Hnodup.
  - simpl. split; [constructor|]. split; [done | constructor].
  - apply Forall_cons in Hdecl as [[given Hgiven] Hdecl].
    unfold declared in Hgiven.
    destruct (o !! CONF_ID) as [[| | | | | |name [] type]|] eqn:Hid;
      try done.
    injection Hgiven as ->.
    assert (declared o = Some given) as Hdeclared
      by (unfold declared; by rewrite Hid).
    change (resolve fresh taken done (o :: rest))
      with (let registered :=
              (Some <$> taken) ++ omap declared (done ++ o :: rest) in
            let out' :=
              match o !! CONF_ID with
              | Some (VID None true ty) =>
                  <[CONF_ID := VID (Some (fresh ty registered)) true ty]> o
              | _ => o
              end in
            out' :: resolve fresh taken (done ++ [out']) rest).
    cbv zeta. rewrite Hid.
    destruct given as [n|].
    + destruct (IH (done ++ [o])) as (Hall & Hnd & Hnamed); [done | |].
      { by rewrite <- app_assoc. }
      rewrite <- app_assoc in Hnd. split; [|split; [done|]].
      * constructor; [|done]. exists (Some n), n, type.
        split; [done|]. split; [|by right].
        symmetry. by apply insert_id.
      * constructor; [|done]. unfold name_of. rewrite Hdeclared. by eexists.
    + set (registered := (Some <$> taken) ++ omap declared (done ++ o :: rest)).
      set (n := fresh type registered).
      set (out' := <[CONF_ID := VID (Some n) true type]> o).
      assert (name_of o = None) as Hnone
        by (unfold name_of; by rewrite Hdeclared).
      assert (name_of out' = Some n) as Hsome by apply name_of_insert.
      assert (n ∉ taken ++ omap name_of (done ++ o :: rest)) as Hnew.
      { intros Hin. apply (Hfresh type registered). fold n.
        unfold registered. apply elem_of_app in Hin as [Hin|Hin].
        - apply elem_of_app. left. apply list_elem_of_fmap. by exists n.
        - apply elem_of_app. right. by apply name_of_declared. }
      destruct (IH (done ++ [out'])) as (Hall & Hnd & Hnamed); [done | |].
      { rewrite <- app_assoc. simpl.
        rewrite omap_app in *. simpl in *. rewrite Hnone in *.
        rewrite Hsome. rewrite app_assoc in *.
        apply NoDup_app. apply NoDup_app in Hnodup as (H1 & H2 & H3).
        split; [done|]. split.
        - intros x Hx [->|Hx']%elem_of_cons; [|by apply (H2 x)].
          apply Hnew. apply elem_of_app. by left.
        - apply NoDup_cons. split; [|done]. intros Hin. apply Hnew.
          apply elem_of_app. by right. }
      rewrite <- app_assoc in Hnd. split; [|split; [done|]].
      * constructor; [|done]. exists None, n, type. by split; [|split; [|left]].
      * constructor; [|done]. rewrite Hsome. by eexists.
Qed.

End id_pass_facts.

Lemma validated_declaration (host : version) (py : builtins)
    (declare_id : string → validator value) (COMPONENT_SCHEMA : cv.Schema)
    (cfg out : config) :
  keeps_own_keys COMPONENT_SCHEMA = true →
  declares declare_id →
  CONFIG_SCHEMA host py declare_id COMPONENT_SCHEMA cfg = Ok out →
  ∃ given, out !! CONF_ID = Some (VID given true StreamServerComponent)
           ∧ is_Some (out !! CONF_PORT).
Proof.
  intros Hkeeps Hdeclares Hout.
  destruct (validated_keys _ _ _ _ _ _ Hkeeps Hout) as (_ & p & _ & Hp & _).
  assert (version_at_least host 2022 3 0) as Hv.
  { eapply CONFIG_SCHEMA_ok_version. by rewrite Hout. }
  rewrite CONFIG_SCHEMA_supported in Hout by done.
  destruct (validated_identifier _ _ _ Hkeeps _ _ Hout) as (v & Hv' & Hid).
  apply Hdeclares in Hv' as [given ->].
  exists given. split; [done | by eexists].
Qed.

(** C5: with [MULTI_CONF] the loader takes any number of blocks: when
    each is valid on its own and the names the blocks give are different
    from each other and from those declared elsewhere, all blocks are
    accepted; each gives its own validated configuration, which is what
    the schema makes of that block alone, port included, with an
    identifier of its own: the name the block gives, or a new one, all of
    them different; and code generation hands each its own port. *)
Theorem multiple_instances (host : version) (py : builtins)
    (declare_id : string → validator value) (COMPONENT_SCHEMA : cv.Schema)
    (fresh : string → list (option string) → string) (taken : list string)
    (blocks validated : list config) :
  keeps_own_keys COMPONENT_SCHEMA = true →
  declares declare_id →
  gives_fresh fresh →
  Forall2 (λ b o, CONFIG_SCHEMA host py declare_id COMPONENT_SCHEMA b = Ok o)
          blocks validated →
  NoDup (taken ++ omap loader.name_of validated) →
  ∃ outs log,
    loader.validate_component fresh taken
      (stream_server host py declare_id COMPONENT_SCHEMA) blocks = Ok outs
    ∧ Forall2 (λ o out,
                 ∃ name,
                   out = <[CONF_ID := VID (Some name) true
                                        StreamServerComponent]> o
                   ∧ (loader.name_of o = Some name
                      ∨ loader.name_of o = None))
              validated outs
    ∧ NoDup (taken ++ omap loader.name_of outs)
    ∧ length (omap loader.name_of outs) = length blocks
    ∧ cg.run (loader.generate
                (stream_server host py declare_id COMPONENT_SCHEMA) outs)
      = inr (tt, log)
    ∧ added log = set_port_call <$> outs.
Proof.
  intros Hkeeps Hdeclares Hfresh Hvalid Hnodup.
  assert (Forall (λ o, ∃ given,
                    o !! CONF_ID
                    = Some (VID given true StreamServerComponent)
                    ∧ is_Some (o !! CONF_PORT)) validated) as Hdecl.
  { clear Hnodup. induction Hvalid as [|b o bs os Hb _ IH]; constructor;
      [|done]. by eapply validated_declaration. }
  assert (loader.validate_blocks
            (stream_server host py declare_id COMPONENT_SCHEMA) blocks
          = Ok validated) as Hblocks.
  { unfold loader.validate_blocks. simpl.
    rewrite (validated_results _ _ _ Hvalid). apply collect_oks. }
  assert (loader.redefined taken validated = []) as Hredefined.
  { apply NoDup_app in Hnodup as (_ & Hdisjoint & Hnames).
    apply redefined_nil; [done|]. intros n Hn Hin. by apply (Hdisjoint n). }
  destruct (resolve_spec fresh taken Hfresh validated [])
    as (Hresolved & Hnd & Hnamed); [| done |].
  { eapply Forall_impl; [exact Hdecl|]. intros o (given & Hid & _).
    unfold loader.declared. rewrite Hid. by eexists. }
  set (outs := loader.resolve fresh taken [] validated) in *.
  assert (Forall2 (λ o out,
                 ∃ name,
                   out = <[CONF_ID := VID (Some name) true
                                        StreamServerComponent]> o
                   ∧ (loader.name_of o = Some name
                      ∨ loader.name_of o = None))
              validated outs) as Heach.
  { clear -Hresolved Hdecl. induction Hresolved
      as [|o out os outs' (given & name & type & Hid & -> & Hgiven) _ IH];
      [constructor|].
    apply Forall_cons in Hdecl as [(given' & Hid' & _) Hdecl].
    constructor; [|by apply IH].
    rewrite Hid in Hid'. injection Hid' as <- ->.
    exists name. split; [done|].
    unfold loader.name_of, loader.declared. rewrite Hid.
    destruct Hgiven as [->| ->]; [by right | by left]. }
  destruct (generate_blocks
              (stream_server host py declare_id COMPONENT_SCHEMA) outs
              eq_refl)
    with (log := @nil cg.action) as (log & Hrun & Hadded).
  { clear -Heach Hdecl. induction Heach as [|o out os outs' (name & -> & _) _ IH];
      [constructor|].
    apply Forall_cons in Hdecl as [(given & _ & Hport) Hdecl].
    constructor; [|by apply IH]. split.
    - rewrite lookup_insert_eq. by eexists.
    - rewrite lookup_insert_ne; [done | key_ne]. }
  exists outs, log. split.
  { unfold loader.validate_component, loader.id_pass.
    by rewrite Hblocks, Hredefined. }
  split; [done|]. split; [done|]. split; [|by split].
  rewrite (Forall2_length _ _ _ Hvalid), (Forall2_length _ _ _ Heach).
  clear -Hnamed. induction Hnamed as [|out outs' [n Hn] _ IH]; [done|].
  simpl. rewrite Hn. simpl. by f_equal.
Qed.

Lemma sample_blocks_validated :
  Forall2 (λ b o, SAMPLE_SCHEMA b = Ok o) sample_blocks sample_validated.
Proof. repeat constructor; by vm_compute. Defined.

Lemma sample_declares : declares sample_declare_id.
Proof.
  intros type v v'. unfold sample_declare_id.
  destruct v; try done; intros [= <-]; by eexists.
Defined.

Lemma multiple_instances_witness :
  keeps_own_keys sample_COMPONENT_SCHEMA = true
  ∧ declares sample_declare_id
  ∧ gives_fresh sample_fresh
  ∧ Forall2 (λ b o, SAMPLE_SCHEMA b = Ok o) sample_blocks sample_validated
  ∧ NoDup (["uart_bus"%string] ++ omap loader.name_of sample_validated)
  ∧ ∃ outs log,
      loader.validate_component sample_fresh ["uart_bus"%string]
        (stream_server sample_version ascii_builtins sample_declare_id
           sample_COMPONENT_SCHEMA)
        sample_blocks = Ok outs
      ∧ NoDup (["uart_bus"%string] ++ omap loader.name_of outs)
      ∧ length (omap loader.name_of outs) = length sample_blocks
      ∧ cg.run (loader.generate
                  (stream_server sample_version ascii_builtins
                     sample_declare_id sample_COMPONENT_SCHEMA) outs)
        = inr (tt, log)
      ∧ added log = set_port_call <$> outs.
Proof.
  assert (NoDup (["uart_bus"%string]
                 ++ omap loader.name_of sample_validated)) as Hnodup.
  { vm_compute. apply NoDup_cons. split; [|apply NoDup_singleton].
    intros [=]%list_elem_of_singleton. }
  split; [reflexivity|]. split; [exact sample_declares|].
  split; [exact sample_fresh_gives_fresh|].
  split; [exact sample_blocks_validated|]. split; [exact Hnodup|].
  destruct (multiple_instances sample_version ascii_builtins
              sample_declare_id sample_COMPONENT_SCHEMA sample_fresh
              ["uart_bus"%string] sample_blocks sample_validated eq_refl
              sample_declares sample_fresh_gives_fresh
              sample_blocks_validated Hnodup)
    as (outs & log & Hval & _ & Hnd & Hlen & Hrun & Hadded).
  exists outs, log. split; [exact Hval|]. split; [exact Hnd|].
  split; [exact Hlen|]. split; [exact Hrun | exact Hadded].
Defined.

(** Two blocks that give the same name are not accepted together. *)
Example same_name_twice_rejected :
  loader.validate_component sample_fresh []
    (stream_server sample_version ascii_builtins sample_declare_id
       sample_COMPONENT_SCHEMA)
    [ {[ CONF_ID := VStr "gps" ]}; {[ CONF_ID := VStr "gps" ]} ]
  = Raise (mkInvalid (IDRedefined "gps") [CONF_ID]) [].
Proof. by vm_compute. Qed.

(** Two blocks without name get different names. *)
Example unnamed_blocks_named_apart :
  (λ r, match r with
        | Ok outs => omap loader.name_of outs
        | Raise _ _ => []
        end)
    (loader.validate_component sample_fresh []
       (stream_server sample_version ascii_builtins sample_declare_id
          sample_COMPONENT_SCHEMA)
       [ ∅; ∅ ])
  = [ "streamservercomponent_id_"%string;
      "streamservercomponent_id__________________________"%string ].
Proof. by vm_compute. Qed.
